(** * Lambda run monitoring: log-event analysis and report formatting

    A shallow embedding of [monitor_lambda_runs.py] and
    [format_request_events.py], and the properties of the run analyzer,
    the run extractor and the report formatter that follow from the code. *)

From Stdlib Require Import ZArith Ascii Lia.
From Stdlib Require String.
From stdpp Require Import base gmap strings list pretty.

Local Open Scope Z_scope.

(** ** Python values used by both modules *)

(** The exceptions the modelled functions raise: a failed [assert] carries
    its formatted message, a failed subscript [d[k]] carries the key.
    [OutOfRange] stands for what the [datetime] module raises on a value
    it does not support ([ValueError], [OverflowError] or [OSError], by
    the value and the platform) and carries the value. *)
Inductive exn : Type :=
| AssertionError (msg : string)
| KeyError (key : string)
| OutOfRange (value : Z).

(** The outcome of a call: [inl e] when [e] was raised, [inr v] when [v]
    was returned. *)
Definition result (A : Type) : Type := exn + A.

(** Sequencing stops at the first exception. *)
Global Instance result_bind : MBind result := λ A B f m,
  match m with
  | inl e => inl e
  | inr a => f a
  end.

(** A CloudWatch log event, a JSON object.  The code tests for the keys
    [message] and [extractedFields] with [in] before it reads them in the
    analyzer and the extractor, so they are optional; [timestamp] is read
    by subscript wherever it is used and is a plain field. *)
Record log_event : Type := LogEvent {
  message : option string;
  timestamp : Z;
  extractedFields : option (gmap string string)
}.

(** The handler context built by [lambda_handler]. *)
Record handler_context : Type := HandlerContext {
  log_group_name : string;
  log_stream_name : string;
  function_name : string;
  display_name : string;
  dry_run : bool
}.

(** [s.startswith(p)] and [s.endswith(p)]. *)
Definition startswith (s p : string) : bool := String.prefix p s.

Definition endswith (s p : string) : bool :=
  let n := String.length s in
  let m := String.length p in
  (m <=? n)%nat && bool_decide (String.substring (n - m) m s = p).

Definition newline : string := String "010" EmptyString.

(** ** monitor_lambda_runs.py *)

(** The dictionary returned by [analyze_run_events]. *)
Record run_info : Type := RunInfo {
  start : Z;
  end_ : Z;
  duration : Z;
  errors : Z;
  warnings : Z
}.

(** The four local variables the loop of [analyze_run_events] updates. *)
Record scan : Type := Scan {
  scan_errors : Z;
  scan_warnings : Z;
  startts : Z;
  endts : Z
}.

Definition scan_init : scan := Scan 0 0 0 0.

(** One iteration of the loop body (lines 87-96). *)
Definition scan_event (st : scan) (event : log_event) : scan :=
  match message event with
  | Some msg =>
      if startswith msg "START" then
        Scan (scan_errors st) (scan_warnings st) (timestamp event) (endts st)
      else if startswith msg "END" then
        Scan (scan_errors st) (scan_warnings st) (startts st) (timestamp event)
      else if startswith msg "[ERROR]" then
        Scan (scan_errors st + 1) (scan_warnings st) (startts st) (endts st)
      else if startswith msg "[WARNING]" then
        Scan (scan_errors st) (scan_warnings st + 1) (startts st) (endts st)
      else st
  | None => st
  end.

Definition scan_events (events : list log_event) : scan :=
  foldl scan_event scan_init events.

Definition no_events_msg (requestId : string) : string :=
  "No events found for request " +:+ requestId.
Definition no_start_msg (requestId : string) : string :=
  "No START event found in request log trace " +:+ requestId.
Definition no_end_msg (requestId : string) : string :=
  "No END event found in request log trace " +:+ requestId.

(** [assert cond, msg]. *)
Definition assert (cond : bool) (msg : string) : result unit :=
  if cond then inr tt else inl (AssertionError msg).

Definition analyze_run_events (requestId : string) (events : list log_event)
    (context : handler_context) : result run_info :=
  _ ← assert (0 <? Z.of_nat (length events)) (no_events_msg requestId) ;
  let st := scan_events events in
  _ ← assert (0 <? startts st) (no_start_msg requestId) ;
  _ ← assert (0 <? endts st) (no_end_msg requestId) ;
  let duration := endts st - startts st in
  inr (RunInfo (startts st) (endts st) duration (scan_errors st) (scan_warnings st)).

(** [get_request_ids]: the loop collecting [ids] (lines 179-184). *)
Definition end_request_id (event : log_event) : option string :=
  match extractedFields event with
  | Some fields =>
      match fields !! "type" with
      | Some ty =>
          if bool_decide (ty = "END") then fields !! "requestId" else None
      | None => None
      end
  | None => None
  end.

Definition collect_ids (events : list log_event) : list string :=
  omap end_request_id events.

Definition no_end_events_msg : string := "No END events found in message stream.".
Definition duplicate_ids_msg : string := "Found duplicate request ids".

Definition get_request_ids (events : list log_event) (context : handler_context)
    : result (list string) :=
  let ids := collect_ids events in
  _ ← assert (0 <? Z.of_nat (length ids)) no_end_events_msg ;
  _ ← assert (bool_decide (length ids = size (list_to_set ids : gset string)))
        duplicate_ids_msg ;
  inr ids.

(** ** A backtracking matcher for the regular expressions the formatter uses

    Python's [re] tries the alternatives of a greedy repetition longest
    first and gives up characters one at a time when the rest of the
    pattern fails.  The matcher below does the same, in continuation
    passing style: [k] is the rest of the pattern, applied to the rest of
    the subject string. *)

Inductive regex : Type :=
| RClass (cls : ascii → bool)
| RPlus (cls : ascii → bool)
| RSeq (r1 r2 : regex)
| RGroup (n : nat) (r : regex).

(** The text a sub-pattern consumed: [s] without its suffix [rest]. *)
Definition consumed (s rest : string) : string :=
  String.substring 0 (String.length s - String.length rest) s.

(** [cls+], greedy: one character of the class, then as many more as
    possible, backing off while the continuation fails. *)
Fixpoint plus_greedy {R : Type} (cls : ascii → bool) (s : string)
    (k : string → option R) : option R :=
  match s with
  | EmptyString => None
  | String c s' =>
      if cls c then
        match plus_greedy cls s' k with
        | Some r => Some r
        | None => k s'
        end
      else None
  end.

Fixpoint regex_run (r : regex) (s : string) (groups : gmap nat string)
    (k : string → gmap nat string → option (gmap nat string))
    : option (gmap nat string) :=
  match r with
  | RClass cls =>
      match s with
      | EmptyString => None
      | String c s' => if cls c then k s' groups else None
      end
  | RPlus cls => plus_greedy cls s (λ s', k s' groups)
  | RSeq r1 r2 => regex_run r1 s groups (λ s1 groups1, regex_run r2 s1 groups1 k)
  | RGroup n r1 =>
      regex_run r1 s groups (λ s1 groups1, k s1 (<[n := consumed s s1]> groups1))
  end.

(** [re.match(r, s)]: anchored at the start of [s], not at its end. *)
Definition re_match (r : regex) (s : string) : option (gmap nat string) :=
  regex_run r s ∅ (λ _ groups, Some groups).

(** [match.group(n)] for a group that took part in the match. *)
Definition group (m : gmap nat string) (n : nat) : string := default "" (m !! n).

(** Character classes.  A character is a code point below 256. [\s] on a
    Python 3 [str] is [str.isspace]: tab to carriage return, the four
    separators 28 to 31, space, NEL and the no-break space. *)
Definition is_space (c : ascii) : bool :=
  let n := nat_of_ascii c in
  ((9 <=? n) && (n <=? 13) || (28 <=? n) && (n <=? 32)
   || (n =? 133) || (n =? 160))%nat.

Definition not_space (c : ascii) : bool := negb (is_space c).

Definition is_upper (c : ascii) : bool :=
  let n := nat_of_ascii c in ((65 <=? n) && (n <=? 90))%nat.

Definition is_char (a c : ascii) : bool := bool_decide (c = a).

(** With [(?s)] the dot matches every character, the line break too. *)
Definition any_char (c : ascii) : bool := true.

Infix "⋅" := RSeq (at level 41, right associativity).

(** [(?s)\[([A-Z]+)\]\s+\S+\s+\S+\s+(.+)] *)
Definition tagged_line_re : regex :=
  RClass (is_char "[") ⋅ RGroup 1 (RPlus is_upper) ⋅ RClass (is_char "]")
  ⋅ RPlus is_space ⋅ RPlus not_space ⋅ RPlus is_space ⋅ RPlus not_space
  ⋅ RPlus is_space ⋅ RGroup 2 (RPlus any_char).

(** ** format_request_events.py *)

(** [info] as [process_lambda_run] hands it to the formatter: the analysis
    result extended with [requestId] and [events]. *)
Record report_info : Type := ReportInfo {
  info : run_info;
  requestId : string;
  events : list log_event
}.

(** ['%-7s' % s]: left-justified in a field of (at least) the width. *)
Fixpoint spaces (n : nat) : string :=
  match n with
  | O => ""
  | S n' => String " " (spaces n')
  end.

Definition ljust (width : nat) (s : string) : string :=
  s +:+ spaces (width - String.length s).

(** [''.join(l)]. *)
Definition join (l : list string) : string := foldr String.append "" l.

(** [map(f, l)] consumed to the end: the first exception wins. *)
Fixpoint map_result {A B : Type} (f : A → result B) (l : list A) : result (list B) :=
  match l with
  | [] => inr []
  | x :: l' => y ← f x; ys ← map_result f l'; inr (y :: ys)
  end.

(** [event['message']]. *)
Definition getitem_message (event : log_event) : result string :=
  match message event with
  | Some msg => inr msg
  | None => inl (KeyError "message")
  end.

Definition digit (n : Z) : ascii := ascii_of_nat (48 + Z.to_nat n).

Definition two_digits (n : Z) : string :=
  String (digit (n / 10)) (String (digit (n mod 10)) "").

Definition create_message_subject (i : report_info) (context : handler_context)
    : string :=
  let base := display_name context +:+ " request completed" in
  if 0 <? errors (info i) then base +:+ " with ERRORS!"
  else if 0 <? warnings (info i) then base +:+ " with WARNINGS!"
  else base.

(** [dt.strftime('%H:%M:%S')] for a local date and time [dt], given as the
    whole seconds of its wall clock counted from 1970-01-01 00:00:00. *)
Definition strftime_HMS (dt : Z) : string :=
  let sod := dt mod 86400 in
  two_digits (sod / 3600) +:+ ":" +:+ two_digits (sod / 60 mod 60) +:+ ":"
  +:+ two_digits (sod mod 60).

(** [datetime.timedelta(milliseconds=d)]: the days of a [timedelta] are
    at most 999999999 in magnitude. *)
Definition timedelta_milliseconds (d : Z) : result Z :=
  if (-999999999 <=? d / 86400000) && (d / 86400000 <=? 999999999) then inr d
  else inl (OutOfRange d).

Section FormatRequestEvents.

(** What the interpreter and the system supply.
    [fromtimestamp ms] is [datetime.fromtimestamp(ms / 1000)]: it raises
    when the timestamp is outside what the platform and the years 1 to
    9999 allow, and otherwise gives the local date and time, as the whole
    seconds of its wall clock.  [str_datetime ms] is [str] of that date and
    time when there is one, and [fmt_total_seconds d] is ['%f'] of the
    seconds of a duration of [d] milliseconds, a float. *)
Variable fromtimestamp : Z → result Z.
Variable str_datetime : Z → string.
Variable fmt_total_seconds : Z → string.

Definition format_log_event (event : log_event) : result string :=
  msg ← getitem_message event;
  dt ← fromtimestamp (timestamp event);
  let ts := strftime_HMS dt in
  if startswith msg "START" then inr (ts +:+ " " +:+ ljust 7 "START" +:+ newline)
  else if startswith msg "END" then inr (ts +:+ " " +:+ ljust 7 "END" +:+ newline)
  else if startswith msg "REPORT" then inr ""
  else
    let result :=
      match re_match tagged_line_re msg with
      | Some m => ts +:+ " " +:+ ljust 7 (group m 1) +:+ " " +:+ group m 2
      | None => ts +:+ " " +:+ msg
      end in
    inr (if endswith result newline then result else result +:+ newline).

(** The operands of the sum are evaluated from left to right: the event
    log, then the start, then the duration. *)
Definition create_message_body (i : report_info) (context : handler_context)
    : result string :=
  lines ← map_result format_log_event (events i);
  _ ← fromtimestamp (start (info i));
  _ ← timedelta_milliseconds (duration (info i));
  inr ("Execution results for " +:+ display_name context +:+ newline +:+ newline
       +:+ pretty (errors (info i)) +:+ " errors" +:+ newline
       +:+ pretty (warnings (info i)) +:+ " warnings" +:+ newline
       +:+ newline +:+ "Execution Log" +:+ newline +:+ newline
       +:+ join lines
       +:+ newline +:+ "Lambda Function: " +:+ function_name context +:+ newline
       +:+ "Request ID: " +:+ requestId i +:+ newline
       +:+ "Started: " +:+ str_datetime (start (info i)) +:+ newline
       +:+ "Duration: " +:+ fmt_total_seconds (duration (info i)) +:+ " seconds").

End FormatRequestEvents.

(** ** Vocabulary of the properties *)

(** Events whose message starts with the marker [START], resp. [END]. *)
Definition is_start (event : log_event) : bool :=
  match message event with
  | Some msg => startswith msg "START"
  | None => false
  end.

Definition is_end (event : log_event) : bool :=
  match message event with
  | Some msg => startswith msg "END"
  | None => false
  end.

Definition count_start (events : list log_event) : nat :=
  length (List.filter is_start events).

Definition count_end (events : list log_event) : nat :=
  length (List.filter is_end events).

(** The timestamp of the last event of a kind, if there is one. *)
Definition last_ts (kind : log_event → bool) (events : list log_event) : option Z :=
  last (timestamp <$> List.filter kind events).

(** Events of a subscription batch whose extracted [type] is [END], and
    the request identifier an event carries. *)
Definition end_typed (event : log_event) : bool :=
  match extractedFields event with
  | Some fields => bool_decide (fields !! "type" = Some "END")
  | None => false
  end.

Definition event_request_id (event : log_event) : option string :=
  fields ← extractedFields event; fields !! "requestId".

(** Some identifier is carried by two END-typed events of the batch. *)
Definition duplicate_end_id (events : list log_event) : Prop :=
  ∃ (i j : nat) (e1 e2 : log_event) (id : string),
    i ≠ j ∧ events !! i = Some e1 ∧ events !! j = Some e2
    ∧ end_typed e1 = true ∧ end_typed e2 = true
    ∧ event_request_id e1 = Some id ∧ event_request_id e2 = Some id.

(** Strings made of characters of one class; [run_of] is a non-empty one,
    what [cls+] matches in full. *)
Fixpoint all_chars (cls : ascii → bool) (s : string) : bool :=
  match s with
  | EmptyString => true
  | String c s' => cls c && all_chars cls s'
  end.

Definition run_of (cls : ascii → bool) (s : string) : bool :=
  match s with
  | EmptyString => false
  | String _ _ => all_chars cls s
  end.

(** A greedy [cls+] cannot take the first character of [rest]. *)
Definition stops (cls : ascii → bool) (rest : string) : bool :=
  match rest with
  | EmptyString => true
  | String c _ => negb (cls c)
  end.

(** The shape of a tagged line: a bracketed tag of capital letters at the
    very start, whitespace, two tokens separated by whitespace, whitespace,
    and a non-empty detail. *)
Definition tagged_shape (msg tag d : string) : Prop :=
  ∃ w1 t1 w2 t2 w3 : string,
    msg = "[" +:+ tag +:+ "]" +:+ w1 +:+ t1 +:+ w2 +:+ t2 +:+ w3 +:+ d
    ∧ run_of is_upper tag = true
    ∧ run_of is_space w1 = true ∧ run_of not_space t1 = true
    ∧ run_of is_space w2 = true ∧ run_of not_space t2 = true
    ∧ run_of is_space w3 = true ∧ d ≠ "".

(** The groups of a match of the tagged-line pattern. *)
Definition tagged_groups (tag d : string) : gmap nat string :=
  <[2%nat := d]> (<[1%nat := tag]> ∅).

(** The line breaks of a string, and whether its last character is one. *)
Definition is_newline (c : ascii) : bool := bool_decide (c = "010"%char).
Global Arguments is_newline : simpl never.

Fixpoint count_newlines (s : string) : nat :=
  match s with
  | EmptyString => 0
  | String c s' => (if is_newline c then 1 else 0) + count_newlines s'
  end.

Fixpoint last_is_newline (s : string) : bool :=
  match s with
  | EmptyString => false
  | String c EmptyString => is_newline c
  | String _ s' => last_is_newline s'
  end.

(** A message of one line: no line break, except possibly as its last
    character. *)
Fixpoint single_line (s : string) : bool :=
  match s with
  | EmptyString => true
  | String c s' =>
      if is_newline c then bool_decide (s' = EmptyString) else single_line s'
  end.

(** The detail the pattern captures from the text that follows the
    whitespace after the second token: the text from its first character
    that is not whitespace, and the last character of a text that is all
    whitespace. *)
Fixpoint lstrip (s : string) : string :=
  match s with
  | EmptyString => EmptyString
  | String c s' => if is_space c then lstrip s' else s
  end.

Fixpoint last_char (s : string) : string :=
  match s with
  | EmptyString => EmptyString
  | String c EmptyString => s
  | String _ s' => last_char s'
  end.

Definition captured_detail (d : string) : string :=
  match lstrip d with
  | EmptyString => last_char d
  | String _ _ as rest => rest
  end.

(** A text with a final line break added unless it has one. *)
Definition terminated (s : string) : string :=
  if endswith s newline then s else s +:+ newline.

(** Messages the formatter suppresses. *)
Definition is_report (event : log_event) : bool :=
  match message event with
  | Some msg => startswith msg "REPORT"
  | None => false
  end.

(** Events that carry a message, and events whose message is one line. *)
Definition has_message (event : log_event) : bool :=
  match message event with
  | Some _ => true
  | None => false
  end.

Definition one_line (event : log_event) : bool :=
  match message event with
  | Some msg => single_line msg
  | None => false
  end.

(** The events that are rendered: all but the REPORT ones. *)
Definition rendered (events : list log_event) : list log_event :=
  List.filter (λ event, negb (is_report event)) events.

(** An event that has a message and nothing else. *)
Definition ev (msg : string) (ts : Z) : log_event := LogEvent (Some msg) ts None.

(** An event of a subscription batch, with its extracted fields only. *)
Definition end_event (rid : string) : log_event :=
  LogEvent None 0 (Some {[ "type" := "END"; "requestId" := rid ]}).

(** The context of a run of function [foo]. *)
Definition foo_context : handler_context :=
  HandlerContext "/aws/lambda/foo" "stream" "foo" "foo" false.

(** The conversion on Linux with the time zone UTC (CPython 3.6 or later):
    it accepts the timestamps from 0001-01-02 to the end of the year 9999
    and gives their whole seconds. *)
Definition utc_fromtimestamp (ms : Z) : result Z :=
  let t := ms / 1000 in
  if (-62135510400 <=? t) && (t <=? 253402300799) then inr t
  else inl (OutOfRange ms).

(** A timestamp the conversion accepts, and an event that can be rendered:
    it has a message and its timestamp is accepted. *)
Definition accepted (fromtimestamp : Z → result Z) (ms : Z) : Prop :=
  ∃ dt, fromtimestamp ms = inr dt.

Definition renderable (fromtimestamp : Z → result Z) (event : log_event) : Prop :=
  has_message event = true ∧ accepted fromtimestamp (timestamp event).

(** ** The services around the handler

    The rest of [monitor_lambda_runs.py] talks to CloudWatch Logs and to
    SNS through boto3.  A call of a service is recorded, in order, next to
    what the function returns; what the service answers is a parameter. *)

(** What a function of the outer layer can raise: an exception of the
    functions above, the [RuntimeError] of the module itself, the
    [ValueError] of the logger for a level name it does not know, or the
    exception of a boto3 client. *)
Inductive failure : Type :=
| Raised (e : exn)
| RuntimeError (msg : string)
| UnknownLevel (level : string)
| ClientError (detail : string).

(** The keyword arguments of [logs.filter_log_events] and its answer;
    [events] is read by subscript, [nextToken] is tested with [in]. *)
Record filter_request : Type := FilterRequest {
  logGroupName : string;
  logStreamNames : list string;
  filterPattern : string;
  interleaved : bool;
  nextToken : option string
}.

Record filter_response : Type := FilterResponse {
  resp_events : list log_event;
  resp_nextToken : option string
}.

(** The keyword arguments of [sns.publish] and its answer. *)
Record attribute_value : Type := AttributeValue {
  DataType : string;
  StringValue : string
}.

Record publish_request : Type := PublishRequest {
  TopicArn : string;
  Subject : string;
  Message : string;
  MessageAttributes : gmap string attribute_value
}.

Record publish_response : Type := PublishResponse {
  MessageId : string
}.

Inductive call : Type :=
| FilterLogEvents (req : filter_request)
| Publish (req : publish_request).

(** The outcome of a function that calls services: the calls it made and
    the value returned or the exception raised; or, for the paging loop,
    the end of the fuel that bounds its iterations. *)
Inductive outcome (A : Type) : Type :=
| Returns (calls : list call) (a : A)
| Raises (calls : list call) (e : failure)
| OutOfFuel.
Global Arguments Returns {A} calls a.
Global Arguments Raises {A} calls e.
Global Arguments OutOfFuel {A}.

Definition after {A : Type} (calls : list call) (o : outcome A) : outcome A :=
  match o with
  | Returns calls' a => Returns (calls ++ calls') a
  | Raises calls' e => Raises (calls ++ calls') e
  | OutOfFuel => OutOfFuel
  end.

Global Instance outcome_bind : MBind outcome := λ A B f m,
  match m with
  | Returns calls a => after calls (f a)
  | Raises calls e => Raises calls e
  | OutOfFuel => OutOfFuel
  end.

(** A function of the inner layer, which calls no service. *)
Definition lift {A : Type} (r : result A) : outcome A :=
  match r with
  | inl e => Raises [] (Raised e)
  | inr a => Returns [] a
  end.

(** [for x in l: f(x)]. *)
Fixpoint for_each {A : Type} (f : A → outcome unit) (l : list A) : outcome unit :=
  match l with
  | [] => Returns [] tt
  | x :: l' => _ ← f x; for_each f l'
  end.





(** [os.getenv(name, default)]. *)
Definition getenv (environ : gmap string string) (name default_value : string) : string :=
  default default_value (environ !! name).

(** [str.lower] on code points below 256: the capital letters A to Z and
    those of Latin-1, 192 to 222 without the multiplication sign. *)
Definition lower_char (c : ascii) : ascii :=
  let n := nat_of_ascii c in
  if ((65 <=? n) && (n <=? 90)
      || (192 <=? n) && (n <=? 222) && negb (n =? 215))%nat
  then ascii_of_nat (n + 32) else c.

Fixpoint lower (s : string) : string :=
  match s with
  | EmptyString => EmptyString
  | String c s' => String (lower_char c) (lower s')
  end.

(** [s[n:]]. *)
Fixpoint slice_from (n : nat) (s : string) : string :=
  match n, s with
  | O, _ => s
  | S n', String _ s' => slice_from n' s'
  | S _, EmptyString => EmptyString
  end.

(** [get_lambda_tags]. *)
Definition get_lambda_tags (function_name : string) : gmap string string := ∅.

(** The decoded trigger payload: [logGroup], [logStream], [logEvents]. *)
Record subscription_event : Type := SubscriptionEvent {
  logGroup : string;
  logStream : string;
  logEvents : list log_event
}.

Definition not_a_lambda_msg (log_group_name : string) : string :=
  "Log group " +:+ log_group_name +:+ " is not a lambda".

Definition publish_status (i : report_info) : string :=
  if 0 <? errors (info i) then "error"
  else if 0 <? warnings (info i) then "warning"
  else "success".

Definition string_attribute (value : string) : attribute_value :=
  AttributeValue "String" value.

Definition publish_attributes (i : report_info) (context : handler_context)
    : gmap string attribute_value :=
  {[ "function" := string_attribute (function_name context);
     "status" := string_attribute (publish_status i);
     "errors" := string_attribute (pretty (errors (info i)));
     "warnings" := string_attribute (pretty (warnings (info i))) ]}.

Section Handler.

(** The two services, the topic read from the environment when the module
    is loaded, the environment itself, and what the formatter needs (the
    conversion of timestamps and the two renderings). *)
Variable filter_log_events : filter_request → failure + filter_response.
Variable sns_publish : publish_request → failure + publish_response.
Variable topic_arn : string.
Variable environ : gmap string string.
Variable fromtimestamp : Z → result Z.
Variable str_datetime : Z → string.
Variable fmt_total_seconds : Z → string.

(** The trigger as Lambda delivers it, and its decoding (base64, zlib and
    JSON, all library code). *)
Variable handler_event : Type.
Variable unpack_subscription_event : handler_event → failure + subscription_event.

Definition call_filter_log_events (req : filter_request) : outcome filter_response :=
  match filter_log_events req with
  | inl e => Raises [FilterLogEvents req] e
  | inr results => Returns [FilterLogEvents req] results
  end.

Definition call_sns_publish (req : publish_request) : outcome publish_response :=
  match sns_publish req with
  | inl e => Raises [Publish req] e
  | inr response => Returns [Publish req] response
  end.

Definition log_filter (requestId : string) : string :=
  "[level,ts,id=" +:+ requestId +:+ ",...]".

Definition run_events_request (requestId : string) (context : handler_context)
    (token : option string) : filter_request :=
  FilterRequest (log_group_name context) [log_stream_name context]
    (log_filter requestId) true token.

(** The loop [while 'nextToken' in results] of [get_run_events]; one unit
    of fuel for each iteration. *)
Fixpoint get_more_events (fuel : nat) (requestId : string) (context : handler_context)
    (results : filter_response) (events : list log_event)
    : outcome (list log_event) :=
  match resp_nextToken results with
  | None => Returns [] events
  | Some token =>
      match fuel with
      | O => OutOfFuel
      | S fuel' =>
          results' ← call_filter_log_events
                       (run_events_request requestId context (Some token));
          get_more_events fuel' requestId context results'
            (events ++ resp_events results')
      end
  end.

Definition get_run_events (fuel : nat) (requestId : string) (context : handler_context)
    : outcome (list log_event) :=
  results ← call_filter_log_events (run_events_request requestId context None);
  get_more_events fuel requestId context results (resp_events results).

Definition create_topic_message (i : report_info) (context : handler_context)
    : result (string * string) :=
  let subject := create_message_subject i context in
  defaultMessage ← create_message_body fromtimestamp str_datetime fmt_total_seconds i context;
  inr (subject, defaultMessage).

Definition publish_run_info (i : report_info) (context : handler_context)
    : outcome publish_response :=
  sm ← lift (create_topic_message i context);
  let attributes := publish_attributes i context in
  if dry_run context then Returns [] (PublishResponse "12345")
  else call_sns_publish (PublishRequest topic_arn sm.1 sm.2 attributes).

Definition process_lambda_run (fuel : nat) (requestId : string)
    (context : handler_context) : outcome unit :=
  events ← get_run_events fuel requestId context;
  i ← lift (analyze_run_events requestId events context);
  _ ← publish_run_info (ReportInfo i requestId events) context;
  Returns [] tt.

Definition process_lambda_events (fuel : nat) (events : list log_event)
    (context : handler_context) : outcome unit :=
  ids ← lift (get_request_ids events context);
  for_each (λ request_id, process_lambda_run fuel request_id context) ids.

Definition lambda_handler (fuel : nat) (event : handler_event) : outcome string :=
  let dry_run := bool_decide (lower (getenv environ "DRY_RUN" "false") = "true") in
  match unpack_subscription_event event with
  | inl e => Raises [] e
  | inr subscription_event =>
      let log_group_name := logGroup subscription_event in
      let log_stream_name := logStream subscription_event in
      if startswith log_group_name "/aws/lambda/" then
        let function_name := slice_from 12 log_group_name in
        let display_name :=
          default function_name (get_lambda_tags function_name !! "DISPLAY_NAME") in
        let context :=
          HandlerContext log_group_name log_stream_name function_name display_name
            dry_run in
        _ ← process_lambda_events fuel (logEvents subscription_event) context;
        Returns [] "Mischief managed."
      else Raises [] (RuntimeError (not_a_lambda_msg log_group_name))
  end.

End Handler.

(** ** Vocabulary of the properties of the outer layer *)

(** The calls an outcome records. *)
Definition calls_of {A : Type} (o : outcome A) : list call :=
  match o with
  | Returns calls _ => calls
  | Raises calls _ => calls
  | OutOfFuel => []
  end.

Definition is_publish (c : call) : bool :=
  match c with
  | Publish _ => true
  | FilterLogEvents _ => false
  end.

(** Lines the analyzer counts. *)
Definition is_error_line (event : log_event) : bool :=
  match message event with
  | Some msg => startswith msg "[ERROR]"
  | None => false
  end.

Definition is_warning_line (event : log_event) : bool :=
  match message event with
  | Some msg => startswith msg "[WARNING]"
  | None => false
  end.

(** The request identifiers of the END-typed events, in arrival order. *)
Definition end_ids (events : list log_event) : list string :=
  omap event_request_id (List.filter end_typed events).

(** The value of [dry_run] the handler computes from [DRY_RUN]. *)
Definition dry_run_setting (environ : gmap string string) : bool :=
  bool_decide (lower (getenv environ "DRY_RUN" "false") = "true").

(** The pages the log service serves for a request, from a token on: each
    page but the last names the next one. *)
Inductive served (filter_log_events : filter_request → failure + filter_response)
    (request : option string → filter_request)
    : option string → list filter_response → Prop :=
| served_last token page :
    filter_log_events (request token) = inr page →
    resp_nextToken page = None →
    served filter_log_events request token [page]
| served_next token page next pages :
    filter_log_events (request token) = inr page →
    resp_nextToken page = Some next →
    served filter_log_events request (Some next) pages →
    served filter_log_events request token (page :: pages).

(** The calls that fetch a sequence of pages, the first with [token]. *)
Fixpoint page_calls (request : option string → filter_request) (token : option string)
    (pages : list filter_response) : list call :=
  match pages with
  | [] => []
  | page :: pages' =>
      FilterLogEvents (request token) :: page_calls request (resp_nextToken page) pages'
  end.

(** The events of a sequence of pages, in the order served. *)
Definition page_events (pages : list filter_response) : list log_event :=
  concat (resp_events <$> pages).

(** An outcome all of whose calls satisfy [P]. *)
Definition all_calls {A : Type} (P : call → Prop) (o : outcome A) : Prop :=
  Forall P (calls_of o).

(** A log service that serves the events of a run in two pages, and one
    plain line for the request identifier [bad]; an SNS that accepts every
    message; and a trigger that needs no decoding. *)
Definition two_page_logs (req : filter_request) : failure + filter_response :=
  if bool_decide (filterPattern req = "[level,ts,id=bad,...]") then
    inr (FilterResponse [ev "hello" 5] None)
  else
    match nextToken req with
    | None => inr (FilterResponse [ev "START RequestId: r" 1000] (Some "page2"))
    | Some _ => inr (FilterResponse [ev "END RequestId: r" 1100] None)
    end.

Definition accepting_sns (req : publish_request) : failure + publish_response :=
  inr (PublishResponse "m-1").

Definition decoded (event : subscription_event) : failure + subscription_event :=
  inr event.

Definition dry_context : handler_context :=
  HandlerContext "/aws/lambda/foo" "stream" "foo" "foo" true.

(** ** Facts about strings *)

Section Strings.

Implicit Types (s t p : string) (c : ascii) (cls : ascii → bool).

Lemma str_app_cons c s t : String c s +:+ t = String c (s +:+ t).
Proof. reflexivity. Qed.

Lemma str_app_nil_l s : "" +:+ s = s.
Proof. reflexivity. Qed.

Lemma str_app_nil_r s : s +:+ "" = s.
Proof. induction s as [|c s IH]; [done|]. by rewrite str_app_cons, IH. Qed.

Lemma str_app_assoc s t p : (s +:+ t) +:+ p = s +:+ t +:+ p.
Proof. induction s as [|c s IH]; [done|]. by rewrite !str_app_cons, IH. Qed.

Lemma str_app_nil_inv s t : s +:+ t = "" → s = "" ∧ t = "".
Proof. destruct s; [done|]. rewrite str_app_cons. discriminate. Qed.

Lemma str_length_app s t :
  String.length (s +:+ t) = (String.length s + String.length t)%nat.
Proof. induction s as [|c s IH]; [done|]. rewrite str_app_cons. simpl. by rewrite IH. Qed.

Lemma substring_prefix s t :
  String.substring 0 (String.length s) (s +:+ t) = s.
Proof.
  induction s as [|c s IH]; [by destruct t|]. rewrite str_app_cons. simpl. by rewrite IH.
Qed.

Lemma consumed_app s t : consumed (s +:+ t) t = s.
Proof.
  unfold consumed. rewrite str_length_app.
  replace (String.length s + String.length t - String.length t)%nat
    with (String.length s) by lia.
  apply substring_prefix.
Qed.

Lemma consumed_all s : consumed s "" = s.
Proof. rewrite <- (str_app_nil_r s) at 1. apply consumed_app. Qed.

(** [endswith] for the one suffix the formatter asks about. *)
Lemma endswith_newline s : endswith s newline = last_is_newline s.
Proof.
  unfold endswith, newline. simpl String.length.
  induction s as [|c s IH]; [done|].
  destruct s as [|c' s].
  - simpl. unfold is_newline.
    destruct (decide (c = "010"%char)) as [->|Hne].
    + by rewrite !bool_decide_eq_true_2.
    + rewrite !bool_decide_eq_false_2; [done..|]. congruence.
  - change (last_is_newline (String c (String c' s)))
      with (last_is_newline (String c' s)).
    rewrite <- IH. simpl. by rewrite !Nat.sub_0_r.
Qed.

Lemma last_is_newline_app s t : t ≠ "" → last_is_newline (s +:+ t) = last_is_newline t.
Proof.
  intros Ht. induction s as [|c s IH]; [done|]. rewrite str_app_cons.
  destruct (s +:+ t) eqn:Hst; [by apply str_app_nil_inv in Hst as [_ ?]|].
  by rewrite <- IH.
Qed.

Lemma last_is_newline_newline s : last_is_newline (s +:+ newline) = true.
Proof. by rewrite last_is_newline_app. Qed.

Lemma terminated_newline s : last_is_newline (terminated s) = true.
Proof.
  unfold terminated. rewrite endswith_newline.
  destruct (last_is_newline s) eqn:Hs; [done|apply last_is_newline_newline].
Qed.

Lemma terminated_app s t : t ≠ "" → terminated (s +:+ t) = s +:+ terminated t.
Proof.
  intros Ht. unfold terminated.
  rewrite !endswith_newline, last_is_newline_app by done.
  destruct (last_is_newline t); [done|apply str_app_assoc].
Qed.

Lemma count_newlines_app s t :
  count_newlines (s +:+ t) = (count_newlines s + count_newlines t)%nat.
Proof.
  induction s as [|c s IH]; [done|]. rewrite str_app_cons. simpl. rewrite IH. lia.
Qed.

Lemma count_newlines_single_line s :
  single_line s = true →
  count_newlines s = if last_is_newline s then 1%nat else 0%nat.
Proof.
  induction s as [|c s IH]; [done|]. simpl.
  destruct (is_newline c) eqn:Hc.
  - by intros ->%bool_decide_eq_true.
  - intros Hs. rewrite (IH Hs). by destruct s; simpl; rewrite ?Hc.
Qed.

Lemma count_newlines_terminated s :
  single_line s = true → count_newlines (terminated s) = 1%nat.
Proof.
  intros Hs. unfold terminated. rewrite endswith_newline.
  destruct (last_is_newline s) eqn:Hl.
  - by rewrite count_newlines_single_line, Hl.
  - rewrite count_newlines_app, count_newlines_single_line, Hl by done. done.
Qed.

Lemma single_line_app_r s t : single_line (s +:+ t) = true → single_line t = true.
Proof.
  induction s as [|c s IH]; [done|]. rewrite str_app_cons. simpl.
  destruct (is_newline c); [|done].
  intros Hst%bool_decide_eq_true. by apply str_app_nil_inv in Hst as [_ ->].
Qed.

Lemma single_line_app_l s t :
  count_newlines s = 0%nat → single_line t = true → single_line (s +:+ t) = true.
Proof.
  intros Hs Ht. induction s as [|c s IH]; [done|]. rewrite str_app_cons.
  simpl in *. destruct (is_newline c); [discriminate|]. by apply IH.
Qed.

Lemma count_newlines_all_chars cls s :
  (∀ c, cls c = true → is_newline c = false) →
  all_chars cls s = true → count_newlines s = 0%nat.
Proof.
  intros Hcls. induction s as [|c s IH]; [done|]. simpl.
  intros [Hc Hs]%andb_true_iff. by rewrite (Hcls c Hc), IH.
Qed.

Lemma count_newlines_spaces n : count_newlines (spaces n) = 0%nat.
Proof. by induction n. Qed.

Lemma run_of_all_chars cls s : run_of cls s = true → s ≠ "" ∧ all_chars cls s = true.
Proof. by destruct s. Qed.

End Strings.

(** ** The matcher on the tagged-line pattern *)

Section Matcher.

Implicit Types (s t rest : string) (c : ascii) (cls : ascii → bool).

Lemma run_of_app cls s t :
  run_of cls s = true → all_chars cls t = true → run_of cls (s +:+ t) = true.
Proof.
  destruct s as [|c s]; [done|]. rewrite str_app_cons. simpl.
  intros [Hc Hs]%andb_true_iff Ht. rewrite Hc. simpl. clear Hc.
  induction s as [|c' s IH]; [done|]. rewrite str_app_cons. simpl in *.
  apply andb_true_iff in Hs as [-> Hs]. by apply IH.
Qed.

Lemma stops_run_of cls cls' t rest :
  (∀ c, cls' c = true → cls c = false) →
  run_of cls' t = true → stops cls (t +:+ rest) = true.
Proof.
  intros Hcls. destruct t as [|c t]; [done|]. rewrite str_app_cons. simpl.
  intros [Hc _]%andb_true_iff. by rewrite (Hcls c Hc).
Qed.

Lemma plus_greedy_stops {R} cls rest (k : string → option R) :
  stops cls rest = true → plus_greedy cls rest k = None.
Proof. destruct rest as [|c rest]; [done|]. simpl. by intros ->%negb_true_iff. Qed.

Lemma plus_greedy_cons {R} cls c s (k : string → option R) :
  plus_greedy cls (String c s) k
  = if cls c then
      match plus_greedy cls s k with
      | Some r => Some r
      | None => k s
      end
    else None.
Proof. reflexivity. Qed.

(** The longest run is tried first: when the continuation accepts what
    follows it, that is the match. *)
Lemma plus_greedy_max {R} cls s rest (k : string → option R) r :
  run_of cls s = true → stops cls rest = true → k rest = Some r →
  plus_greedy cls (s +:+ rest) k = Some r.
Proof.
  intros Hs Hrest Hk. destruct s as [|c s]; [done|]. simpl in Hs.
  revert c Hs. induction s as [|c' s IH]; intros c [Hc Hs]%andb_true_iff.
  - rewrite str_app_cons, str_app_nil_l, plus_greedy_cons.
    by rewrite Hc, (plus_greedy_stops _ _ _ Hrest).
  - rewrite str_app_cons, plus_greedy_cons, Hc.
    by rewrite (IH c' Hs).
Qed.

(** When the continuation rejects the end of the string and accepts its
    last character, the run gives that character back. *)
Lemma plus_greedy_backoff {R} cls s c (k : string → option R) r :
  run_of cls s = true → cls c = true →
  k "" = None → k (String c "") = Some r →
  plus_greedy cls (s +:+ String c "") k = Some r.
Proof.
  intros Hs Hc Hnil Hk. destruct s as [|c0 s]; [done|]. simpl in Hs.
  revert c0 Hs. induction s as [|c' s IH]; intros c0 [Hc0 Hs]%andb_true_iff.
  - rewrite str_app_cons, str_app_nil_l, !plus_greedy_cons. simpl.
    by rewrite Hc0, Hc, Hnil.
  - rewrite str_app_cons, plus_greedy_cons, Hc0.
    by rewrite (IH c' Hs).
Qed.

Lemma plus_greedy_inv {R} cls s (k : string → option R) r :
  plus_greedy cls s k = Some r →
  ∃ t rest, s = t +:+ rest ∧ run_of cls t = true ∧ k rest = Some r.
Proof.
  revert r. induction s as [|c s IH]; intros r; [done|]. simpl.
  destruct (cls c) eqn:Hc; [|done].
  destruct (plus_greedy cls s k) as [r'|] eqn:Hrec.
  - intros [= <-]. destruct (IH r' eq_refl) as (t & rest & -> & Ht & Hk).
    exists (String c t), rest. split_and!; [done| |done].
    simpl. rewrite Hc. by destruct t.
  - intros Hk. exists (String c ""), s. split_and!; [done| |done].
    simpl. by rewrite Hc.
Qed.

Lemma all_chars_any s : all_chars any_char s = true.
Proof. by induction s. Qed.

(** [.+] at the end of the pattern takes the whole rest. *)
Lemma plus_greedy_any {R} s (k : string → option R) r :
  s ≠ "" → k "" = Some r → plus_greedy any_char s k = Some r.
Proof.
  intros Hs Hk. rewrite <- (str_app_nil_r s). apply plus_greedy_max; [|done..].
  destruct s; [done|]. apply all_chars_any.
Qed.

Lemma lstrip_split s : ∃ w, s = w +:+ lstrip s ∧ all_chars is_space w = true.
Proof.
  induction s as [|c s (w & Hw & Hsp)]; [by exists ""|]. simpl.
  destruct (is_space c) eqn:Hc.
  - exists (String c w). rewrite str_app_cons, <- Hw. simpl. by rewrite Hc.
  - by exists "".
Qed.

Lemma lstrip_stops s : stops is_space (lstrip s) = true.
Proof.
  induction s as [|c s IH]; [done|]. simpl.
  destruct (is_space c) eqn:Hc; [done|]. simpl. by rewrite Hc.
Qed.

Lemma last_char_split s :
  s ≠ "" → ∃ s0 c, s = s0 +:+ String c "" ∧ last_char s = String c "".
Proof.
  induction s as [|c s IH]; [done|]. intros _.
  destruct s as [|c' s]; [by exists "", c|].
  destruct IH as (s0 & c1 & Hs & Hl); [done|].
  exists (String c s0), c1. by rewrite str_app_cons, <- Hs.
Qed.

Lemma all_chars_app cls s t :
  all_chars cls (s +:+ t) = all_chars cls s && all_chars cls t.
Proof.
  induction s as [|c s IH]; [done|]. rewrite str_app_cons. simpl.
  by rewrite IH, andb_assoc.
Qed.

Lemma is_char_refl c : is_char c c = true.
Proof. by apply bool_decide_eq_true_2. Qed.

Lemma space_not_space c : is_space c = true → not_space c = false.
Proof. unfold not_space. by intros ->. Qed.

Lemma not_space_space c : not_space c = true → is_space c = false.
Proof. unfold not_space. by intros ?%negb_true_iff. Qed.

End Matcher.

(** ** The run analyzer *)

Section Analyzer.

Implicit Types (events : list log_event) (event : log_event) (st : scan).

Local Arguments ascii_dec : simpl never.

Lemma start_not_end (msg : string) :
  startswith msg "START" = true → startswith msg "END" = false.
Proof.
  destruct msg as [|c msg]; [done|].
  unfold startswith; simpl.
  destruct (ascii_dec "S" c) as [<-|]; [done|discriminate].
Qed.

Lemma scan_events_snoc events event :
  scan_events (events ++ [event]) = scan_event (scan_events events) event.
Proof. unfold scan_events. by rewrite foldl_app. Qed.

Lemma filter_snoc (kind : log_event → bool) events event :
  List.filter kind (events ++ [event])
  = List.filter kind events ++ (if kind event then [event] else []).
Proof. rewrite List.filter_app. simpl. by destruct (kind event). Qed.

Lemma last_ts_snoc (kind : log_event → bool) events event :
  last_ts kind (events ++ [event])
  = if kind event then Some (timestamp event) else last_ts kind events.
Proof.
  unfold last_ts. rewrite filter_snoc. destruct (kind event).
  - by rewrite fmap_snoc, last_snoc.
  - by rewrite app_nil_r.
Qed.

(** What one loop iteration does to the two timestamps. *)
Lemma startts_scan_event st event :
  startts (scan_event st event)
  = if is_start event then timestamp event else startts st.
Proof.
  unfold scan_event, is_start. destruct (message event) as [msg|]; [|done].
  by repeat case_match.
Qed.

Lemma endts_scan_event st event :
  endts (scan_event st event)
  = if is_end event then timestamp event else endts st.
Proof.
  unfold scan_event, is_end. destruct (message event) as [msg|]; [|done].
  destruct (startswith msg "START") eqn:Hs.
  - by rewrite (start_not_end _ Hs).
  - by repeat case_match.
Qed.

(** After the loop, [startts] is the timestamp of the last START event,
    and 0 if there is none; the same for [endts]. *)
Lemma startts_scan_events events :
  startts (scan_events events) = default 0 (last_ts is_start events).
Proof.
  induction events as [|event events IH] using rev_ind; [done|].
  rewrite scan_events_snoc, startts_scan_event, last_ts_snoc.
  by destruct (is_start event).
Qed.

Lemma endts_scan_events events :
  endts (scan_events events) = default 0 (last_ts is_end events).
Proof.
  induction events as [|event events IH] using rev_ind; [done|].
  rewrite scan_events_snoc, endts_scan_event, last_ts_snoc.
  by destruct (is_end event).
Qed.

Lemma counters_scan_event st event :
  0 ≤ scan_errors st ∧ 0 ≤ scan_warnings st →
  0 ≤ scan_errors (scan_event st event) ∧ 0 ≤ scan_warnings (scan_event st event).
Proof.
  intros [He Hw]. unfold scan_event.
  destruct (message event); [|done]. repeat case_match; simpl; lia.
Qed.

Lemma counters_scan_events events :
  0 ≤ scan_errors (scan_events events) ∧ 0 ≤ scan_warnings (scan_events events).
Proof.
  induction events as [|event events IH] using rev_ind; [done|].
  rewrite scan_events_snoc. by apply counters_scan_event.
Qed.

Lemma last_ts_none (kind : log_event → bool) events :
  length (List.filter kind events) = 0%nat → last_ts kind events = None.
Proof.
  unfold last_ts. destruct (List.filter kind events); [done|discriminate].
Qed.

Lemma last_ts_single (kind : log_event → bool) events event :
  List.filter kind events = [event] → last_ts kind events = Some (timestamp event).
Proof. unfold last_ts. by intros ->. Qed.

(** The three assertions, in the order the code makes them. *)
Lemma analyze_run_events_cases rid events context :
  analyze_run_events rid events context =
    if decide (events = []) then inl (AssertionError (no_events_msg rid))
    else if decide (0 < default 0 (last_ts is_start events)) then
      if decide (0 < default 0 (last_ts is_end events)) then
        inr (RunInfo (default 0 (last_ts is_start events))
               (default 0 (last_ts is_end events))
               (default 0 (last_ts is_end events)
                - default 0 (last_ts is_start events))
               (scan_errors (scan_events events))
               (scan_warnings (scan_events events)))
      else inl (AssertionError (no_end_msg rid))
    else inl (AssertionError (no_start_msg rid)).
Proof.
  unfold analyze_run_events.
  rewrite startts_scan_events, endts_scan_events.
  destruct events as [|event events]; [done|].
  rewrite decide_False by done.
  change (0 <? Z.of_nat (length (event :: events))) with true. simpl.
  set (s := default 0 _). set (e := default 0 _).
  destruct (decide (0 < s)) as [Hs|Hs].
  - apply Z.ltb_lt in Hs as ->. simpl.
    destruct (decide (0 < e)) as [He|He].
    + by apply Z.ltb_lt in He as ->.
    + by apply Z.ltb_nlt in He as ->.
  - by apply Z.ltb_nlt in Hs as ->.
Qed.

End Analyzer.

(** C1, as the code has it: analysis fails on every event sequence that has
    no message starting with START or no message starting with END.  (A
    sequence with several START or END messages is not rejected: the last
    of each kind supplies the timestamp.) *)
Theorem analyze_fails_without_marker rid events context :
  count_start events = 0%nat ∨ count_end events = 0%nat →
  ∃ e, analyze_run_events rid events context = inl e.
Proof.
  intros H. rewrite analyze_run_events_cases.
  destruct (decide (events = [])); [by eexists|].
  destruct H as [H|H]; apply last_ts_none in H; rewrite H; simpl.
  - by eexists.
  - destruct (decide (0 < _)); by eexists.
Qed.

Lemma analyze_fails_without_marker_witness :
  (count_start [ev "hello" 5; ev "END RequestId: r" 9] = 0%nat
   ∨ count_end [ev "hello" 5; ev "END RequestId: r" 9] = 0%nat)
  ∧ ∃ e, analyze_run_events "r" [ev "hello" 5; ev "END RequestId: r" 9] foo_context
         = inl e.
Proof.
  split; [left; reflexivity|].
  apply analyze_fails_without_marker. left. reflexivity.
Defined.

(** C1 as stated fails: two START messages and one END message, and the
    analysis returns a summary, timed from the second START. *)
Lemma analyze_accepts_repeated_start :
  count_start [ev "START RequestId: r" 1; ev "START RequestId: r" 2;
               ev "END RequestId: r" 3] = 2%nat
  ∧ analyze_run_events "r"
      [ev "START RequestId: r" 1; ev "START RequestId: r" 2; ev "END RequestId: r" 3]
      foo_context
    = inr (RunInfo 2 3 1 0 0).
Proof. split; reflexivity. Qed.

(** C2, as the code has it: for every event sequence with exactly one START
    event and exactly one END event whose timestamps are both strictly
    positive, the analysis returns a summary whose duration is the END
    timestamp minus the START timestamp, zero when the two coincide. *)
Theorem analyze_duration rid events context s e :
  List.filter is_start events = [s] →
  List.filter is_end events = [e] →
  0 < timestamp s →
  0 < timestamp e →
  ∃ i, analyze_run_events rid events context = inr i
       ∧ duration i = timestamp e - timestamp s
       ∧ (timestamp e = timestamp s → duration i = 0).
Proof.
  intros Hs He Hps Hpe. rewrite analyze_run_events_cases.
  rewrite (last_ts_single _ _ _ Hs), (last_ts_single _ _ _ He). simpl.
  destruct (decide (events = [])) as [->|_]; [discriminate Hs|].
  rewrite !decide_True by done.
  eexists. split; [done|]. simpl. split; [done|lia].
Qed.

Lemma analyze_duration_witness :
  ∃ i, analyze_run_events "r"
         [ev "START RequestId: r" 1000; ev "[ERROR] boom" 1050;
          ev "END RequestId: r" 1100] foo_context = inr i
       ∧ duration i = 1100 - 1000
       ∧ (1100 = 1000 → duration i = 0).
Proof.
  apply (analyze_duration "r" _ foo_context
           (ev "START RequestId: r" 1000) (ev "END RequestId: r" 1100));
    reflexivity.
Defined.

(** C2 as stated fails: one START event at timestamp 0 and one END event,
    and the analysis raises instead of returning a duration. *)
Lemma analyze_duration_epoch_start :
  List.filter is_start [ev "START RequestId: r" 0; ev "END RequestId: r" 5]
  = [ev "START RequestId: r" 0]
  ∧ List.filter is_end [ev "START RequestId: r" 0; ev "END RequestId: r" 5]
    = [ev "END RequestId: r" 5]
  ∧ analyze_run_events "r" [ev "START RequestId: r" 0; ev "END RequestId: r" 5]
      foo_context
    = inl (AssertionError "No START event found in request log trace r").
Proof. repeat split; reflexivity. Qed.

(** C4, as the code has it: the analysis fails with the empty-input error on
    the empty sequence; with the missing-START error on a non-empty
    sequence without a START message; and with the missing-END error on a
    sequence without an END message whose last START event has a strictly
    positive timestamp.  The START assertion is made first. *)
Theorem analyze_specific_errors rid events context :
  (events = [] →
   analyze_run_events rid events context = inl (AssertionError (no_events_msg rid)))
  ∧ (events ≠ [] → count_start events = 0%nat →
     analyze_run_events rid events context = inl (AssertionError (no_start_msg rid)))
  ∧ (count_end events = 0%nat →
     (∃ t, last_ts is_start events = Some t ∧ 0 < t) →
     analyze_run_events rid events context = inl (AssertionError (no_end_msg rid))).
Proof.
  rewrite analyze_run_events_cases. split_and!.
  - intros ->. done.
  - intros Hne Hs. rewrite decide_False by done.
    by rewrite (last_ts_none _ _ Hs).
  - intros He (t & Ht & Hpos). rewrite Ht, (last_ts_none _ _ He). simpl.
    destruct (decide (events = [])) as [->|_]; [discriminate Ht|].
    by rewrite decide_True by done.
Qed.

Lemma analyze_specific_errors_witness :
  analyze_run_events "r" [] foo_context
  = inl (AssertionError "No events found for request r")
  ∧ analyze_run_events "r" [ev "hello" 7; ev "END RequestId: r" 9] foo_context
    = inl (AssertionError "No START event found in request log trace r")
  ∧ analyze_run_events "r" [ev "START RequestId: r" 7; ev "hello" 9] foo_context
    = inl (AssertionError "No END event found in request log trace r").
Proof.
  split_and!.
  - apply (analyze_specific_errors "r" [] foo_context). reflexivity.
  - apply (analyze_specific_errors "r" [ev "hello" 7; ev "END RequestId: r" 9]
             foo_context); [discriminate|reflexivity].
  - apply (analyze_specific_errors "r" [ev "START RequestId: r" 7; ev "hello" 9]
             foo_context); [reflexivity|].
    exists 7. split; [reflexivity|lia].
Defined.

(** C4 as stated fails: a sequence with a START message and no END message,
    and the error raised is the missing-START one. *)
Lemma analyze_start_checked_first :
  count_start [ev "START RequestId: r" 0] = 1%nat
  ∧ count_end [ev "START RequestId: r" 0] = 0%nat
  ∧ analyze_run_events "r" [ev "START RequestId: r" 0] foo_context
    = inl (AssertionError "No START event found in request log trace r")
  ∧ analyze_run_events "r" [ev "START RequestId: r" 0] foo_context
    ≠ inl (AssertionError "No END event found in request log trace r").
Proof. split_and!; [reflexivity..|discriminate]. Qed.

(** C7, as the code has it: in every summary the analysis returns, the error
    and warning counts are non-negative, the start and end timestamps are
    strictly positive and the duration is end minus start; the duration is
    non-negative exactly when the start is not later than the end, which
    the analysis does not check. *)
Theorem analyze_summary_bounds rid events context i :
  analyze_run_events rid events context = inr i →
  0 ≤ errors i ∧ 0 ≤ warnings i ∧ 0 < start i ∧ 0 < end_ i
  ∧ duration i = end_ i - start i
  ∧ (0 ≤ duration i ↔ start i ≤ end_ i).
Proof.
  rewrite analyze_run_events_cases.
  repeat case_decide; try discriminate.
  intros [= <-]. simpl.
  pose proof (counters_scan_events events) as [He Hw].
  split_and!; try done; lia.
Qed.

Lemma analyze_summary_bounds_witness :
  0 ≤ errors (RunInfo 1000 1100 100 1 0) ∧ 0 ≤ warnings (RunInfo 1000 1100 100 1 0)
  ∧ 0 < start (RunInfo 1000 1100 100 1 0) ∧ 0 < end_ (RunInfo 1000 1100 100 1 0)
  ∧ duration (RunInfo 1000 1100 100 1 0)
    = end_ (RunInfo 1000 1100 100 1 0) - start (RunInfo 1000 1100 100 1 0)
  ∧ (0 ≤ duration (RunInfo 1000 1100 100 1 0)
     ↔ start (RunInfo 1000 1100 100 1 0) ≤ end_ (RunInfo 1000 1100 100 1 0)).
Proof.
  apply (analyze_summary_bounds "r"
           [ev "START RequestId: r" 1000; ev "[ERROR] boom" 1050;
            ev "END RequestId: r" 1100] foo_context).
  reflexivity.
Defined.

(** C7 as stated fails: the END event carries an earlier timestamp than the
    START event, and the summary returned has a negative duration. *)
Lemma analyze_negative_duration :
  analyze_run_events "r" [ev "START RequestId: r" 10; ev "END RequestId: r" 5]
    foo_context
  = inr (RunInfo 10 5 (-5) 0 0)
  ∧ duration (RunInfo 10 5 (-5) 0 0) < 0.
Proof. split; reflexivity. Qed.

(** C9, as the code has it: 0 is the value of an unset timestamp.  When the
    only START event carries timestamp 0 the analysis fails with the
    missing-START error.  When the only END event carries timestamp 0 the
    analysis fails too: with the missing-END error if the last START event
    has a strictly positive timestamp, and with the missing-START error,
    whose assertion comes first, otherwise. *)
Theorem analyze_zero_sentinel rid events context :
  (∀ s, List.filter is_start events = [s] → timestamp s = 0 →
        analyze_run_events rid events context
        = inl (AssertionError (no_start_msg rid)))
  ∧ (∀ e, List.filter is_end events = [e] → timestamp e = 0 →
          (∃ t, last_ts is_start events = Some t ∧ 0 < t) →
          analyze_run_events rid events context
          = inl (AssertionError (no_end_msg rid)))
  ∧ (∀ e, List.filter is_end events = [e] → timestamp e = 0 →
          ¬ (∃ t, last_ts is_start events = Some t ∧ 0 < t) →
          analyze_run_events rid events context
          = inl (AssertionError (no_start_msg rid))).
Proof.
  rewrite analyze_run_events_cases. split_and!.
  - intros s Hs H0. rewrite (last_ts_single _ _ _ Hs), H0. simpl.
    destruct (decide (events = [])) as [->|_]; [discriminate Hs|done].
  - intros e He H0 (t & Ht & Hpos).
    rewrite (last_ts_single _ _ _ He), H0, Ht. simpl.
    destruct (decide (events = [])) as [->|_]; [discriminate He|].
    by rewrite decide_True by done.
  - intros e He H0 Hno.
    destruct (decide (events = [])) as [->|_]; [discriminate He|].
    case_decide as Hpos; [|done]. destruct Hno.
    destruct (last_ts is_start events) as [t|]; [by exists t|simpl in Hpos; lia].
Qed.

Lemma analyze_zero_sentinel_witness :
  analyze_run_events "r" [ev "START RequestId: r" 0; ev "END RequestId: r" 9]
    foo_context
  = inl (AssertionError "No START event found in request log trace r")
  ∧ analyze_run_events "r" [ev "START RequestId: r" 4; ev "END RequestId: r" 0]
      foo_context
    = inl (AssertionError "No END event found in request log trace r")
  ∧ analyze_run_events "r" [ev "END RequestId: r" 0] foo_context
    = inl (AssertionError "No START event found in request log trace r").
Proof.
  split_and!.
  - apply (analyze_zero_sentinel "r" _ foo_context) with (s := ev "START RequestId: r" 0);
      reflexivity.
  - apply (analyze_zero_sentinel "r" _ foo_context) with (e := ev "END RequestId: r" 0);
      [reflexivity..|].
    exists 4. split; [reflexivity|lia].
  - apply (analyze_zero_sentinel "r" _ foo_context) with (e := ev "END RequestId: r" 0);
      [reflexivity..|].
    intros (t & Ht & _). discriminate Ht.
Defined.

(** C9 as stated fails: the only START event and the only END event both
    carry timestamp 0, and the error raised is the missing-START one, not
    the missing-END one. *)
Lemma analyze_zero_end_reports_start :
  List.filter is_end [ev "START RequestId: r" 0; ev "END RequestId: r" 0]
  = [ev "END RequestId: r" 0]
  ∧ analyze_run_events "r" [ev "START RequestId: r" 0; ev "END RequestId: r" 0]
      foo_context
    = inl (AssertionError "No START event found in request log trace r")
  ∧ analyze_run_events "r" [ev "START RequestId: r" 0; ev "END RequestId: r" 0]
      foo_context
    ≠ inl (AssertionError "No END event found in request log trace r").
Proof. split_and!; [reflexivity..|discriminate]. Qed.

(** ** The run extractor *)

Section Extractor.

Implicit Types (events : list log_event) (event : log_event) (ids : list string).

Lemma end_request_id_typed event :
  end_request_id event
  = if end_typed event then event_request_id event else None.
Proof.
  unfold end_request_id, end_typed, event_request_id.
  destruct (extractedFields event) as [fields|]; [|done]. simpl.
  destruct (fields !! "type") as [ty|]; [|done].
  destruct (decide (ty = "END")) as [->|Hne].
  - by rewrite !bool_decide_eq_true_2.
  - rewrite !bool_decide_eq_false_2; [done|congruence|done].
Qed.

Lemma collect_ids_no_end events :
  List.filter end_typed events = [] → collect_ids events = [].
Proof.
  unfold collect_ids. induction events as [|event events IH]; [done|].
  simpl. rewrite end_request_id_typed.
  destruct (end_typed event); [discriminate|]. exact IH.
Qed.

(** [len(ids) == len(set(ids))] holds exactly when [ids] has no repeated
    element. *)
Lemma size_list_to_set_le ids : (size (list_to_set ids : gset string) ≤ length ids)%nat.
Proof.
  induction ids as [|id ids IH].
  - by rewrite list_to_set_nil, size_empty.
  - rewrite list_to_set_cons, size_union_alt, size_singleton. simpl.
    apply le_n_S. etrans; [|apply IH].
    apply subseteq_size, subseteq_difference_l. done.
Qed.

Lemma size_list_to_set_NoDup ids :
  length ids = size (list_to_set ids : gset string) → NoDup ids.
Proof.
  induction ids as [|id ids IH]; [constructor|].
  rewrite list_to_set_cons. simpl. intros Hlen.
  destruct (decide (id ∈ ids)) as [Hin|Hnin].
  - assert ({[id]} ∪ list_to_set ids = (list_to_set ids : gset string)) as Heq.
    { apply subseteq_union_1_L, singleton_subseteq_l, elem_of_list_to_set, Hin. }
    rewrite Heq in Hlen. pose proof (size_list_to_set_le ids). lia.
  - constructor; [done|]. apply IH.
    rewrite size_union, size_singleton in Hlen; [lia|].
  by apply disjoint_singleton_l; rewrite elem_of_list_to_set.
Qed.

Lemma collect_ids_duplicate events (i j : nat) e1 e2 id :
  (i < j)%nat → events !! i = Some e1 → events !! j = Some e2 →
  end_request_id e1 = Some id → end_request_id e2 = Some id →
  ¬ NoDup (collect_ids events).
Proof.
  intros Hij H1 H2 Hid1 Hid2 Hnd. unfold collect_ids in Hnd.
  rewrite <- (take_drop_middle events i e1 H1) in Hnd.
  rewrite omap_app in Hnd. simpl in Hnd. rewrite Hid1 in Hnd.
  apply NoDup_app in Hnd as (_ & _ & Hnd).
  apply NoDup_cons in Hnd as [Hnin _]. apply Hnin.
  apply list_elem_of_omap. exists e2. split; [|done].
  apply list_elem_of_lookup. exists (j - S i)%nat.
  rewrite lookup_drop. by replace (S i + (j - S i))%nat with j by lia.
Qed.

Lemma collect_ids_duplicate_end_id events :
  duplicate_end_id events → ¬ NoDup (collect_ids events).
Proof.
  intros (i & j & e1 & e2 & id & Hne & H1 & H2 & Ht1 & Ht2 & Hid1 & Hid2).
  assert (end_request_id e1 = Some id) by (by rewrite end_request_id_typed, Ht1).
  assert (end_request_id e2 = Some id) by (by rewrite end_request_id_typed, Ht2).
  destruct (decide (i < j)%nat).
  - by eapply (collect_ids_duplicate events i j).
  - eapply (collect_ids_duplicate events j i); [lia|done..].
Qed.

End Extractor.

(** C3: [get_request_ids] fails with the empty-result error on every batch
    without an END-typed event, fails with the duplicate-id error on every
    batch in which two END-typed events carry the same identifier, and
    on the two END-typed events with identifiers A and B returns exactly A
    and B.  ([End] of the specification is the extracted type [END].) *)
Theorem get_request_ids_spec context :
  (∀ events, List.filter end_typed events = [] →
     get_request_ids events context = inl (AssertionError no_end_events_msg))
  ∧ (∀ events, duplicate_end_id events →
       get_request_ids events context = inl (AssertionError duplicate_ids_msg))
  ∧ get_request_ids [end_event "A"; end_event "B"] context = inr ["A"; "B"]
  ∧ (list_to_set ["A"; "B"] : gset string) = {[ "A"; "B" ]}.
Proof.
  split_and!.
  - intros events Hnone. unfold get_request_ids.
    by rewrite (collect_ids_no_end _ Hnone).
  - intros events Hdup. apply collect_ids_duplicate_end_id in Hdup.
    unfold get_request_ids.
    destruct (collect_ids events) as [|id ids] eqn:Hids.
    { destruct Hdup. constructor. }
    change (0 <? Z.of_nat (length (id :: ids))) with true.
    rewrite bool_decide_eq_false_2; [done|].
    intros Hlen. by apply Hdup, size_list_to_set_NoDup.
  - by vm_compute.
  - set_solver.
Qed.

Lemma get_request_ids_spec_witness :
  get_request_ids [ev "START RequestId: A" 1] foo_context
  = inl (AssertionError "No END events found in message stream.")
  ∧ get_request_ids [end_event "A"; end_event "A"] foo_context
    = inl (AssertionError "Found duplicate request ids").
Proof.
  split.
  - apply (get_request_ids_spec foo_context). reflexivity.
  - apply (get_request_ids_spec foo_context).
    exists 0%nat, 1%nat, (end_event "A"), (end_event "A"), "A".
    split_and!; [lia|reflexivity..].
Defined.

(** ** What the tagged-line pattern matches *)

Section TaggedPattern.

Implicit Types (msg tag d : string) (m : gmap nat string).

Lemma captured_detail_nonempty d : d ≠ "" → captured_detail d ≠ "".
Proof.
  intros Hd. unfold captured_detail. destruct (lstrip d); [|done].
  destruct (last_char_split d Hd) as (s0 & c & _ & ->). done.
Qed.

(** The detail group at the end of the pattern, after the whitespace run
    [w] that precedes it. *)
Lemma detail_group w d (groups : gmap nat string) :
  run_of is_space w = true → d ≠ "" →
  plus_greedy is_space (w +:+ d)
    (λ s1, regex_run (RGroup 2 (RPlus any_char)) s1 groups (λ _ g, Some g))
  = Some (<[2%nat := captured_detail d]> groups).
Proof.
  intros Hw Hd. unfold captured_detail.
  destruct (lstrip_split d) as (dw & Hsplit & Hdw).
  pose proof (lstrip_stops d) as Hstop.
  destruct (lstrip d) as [|c rest] eqn:Hstrip.
  - rewrite str_app_nil_r in Hsplit. subst dw.
    destruct (last_char_split d Hd) as (d0 & c & Hd0 & ->).
    rewrite Hd0, all_chars_app in Hdw.
    apply andb_true_iff in Hdw as [Hd0s Hc]. simpl in Hc.
    rewrite andb_true_r in Hc.
    rewrite Hd0, <- str_app_assoc.
    apply plus_greedy_backoff; [by apply run_of_app|done|done|].
    cbn [regex_run]. rewrite plus_greedy_cons. simpl.
    by rewrite (consumed_all (String c "")).
  - rewrite Hsplit, <- str_app_assoc.
    apply plus_greedy_max; [by apply run_of_app|done|].
    cbn [regex_run]. apply plus_greedy_any; [done|].
    by rewrite consumed_all.
Qed.

(** Every message of the tagged shape matches, with its tag and the
    detail from its first character that is not whitespace. *)
Lemma re_match_tagged_shape msg tag d :
  tagged_shape msg tag d →
  re_match tagged_line_re msg = Some (tagged_groups tag (captured_detail d)).
Proof.
  intros (w1 & t1 & w2 & t2 & w3 & -> & Htag & Hw1 & Ht1 & Hw2 & Ht2 & Hw3 & Hd).
  unfold re_match, tagged_line_re, tagged_groups.
  rewrite str_app_cons, str_app_nil_l. cbn [regex_run].
  rewrite is_char_refl.
  apply plus_greedy_max; [done|by rewrite str_app_cons|].
  rewrite consumed_app, str_app_cons, str_app_nil_l. cbn [regex_run].
  rewrite is_char_refl.
  apply plus_greedy_max;
    [done|by apply (stops_run_of _ not_space), Ht1; apply not_space_space|].
  apply plus_greedy_max;
    [done|by apply (stops_run_of _ is_space), Hw2; apply space_not_space|].
  apply plus_greedy_max;
    [done|by apply (stops_run_of _ not_space), Ht2; apply not_space_space|].
  apply plus_greedy_max;
    [done|by apply (stops_run_of _ is_space), Hw3; apply space_not_space|].
  by apply detail_group.
Qed.

(** Every match is of a message of the tagged shape, and its groups are
    the tag and the detail. *)
Lemma re_match_tagged_inv msg m :
  re_match tagged_line_re msg = Some m →
  ∃ tag d, tagged_shape msg tag d ∧ m = tagged_groups tag d.
Proof.
  unfold re_match, tagged_line_re. cbn [regex_run].
  destruct msg as [|c0 s0]; [done|].
  destruct (is_char "[" c0) eqn:Hc0; [|done].
  apply bool_decide_eq_true in Hc0 as ->.
  intros (tag & s1 & -> & Htag & H)%plus_greedy_inv.
  rewrite consumed_app in H.
  destruct s1 as [|c1 s1]; [done|].
  destruct (is_char "]" c1) eqn:Hc1; [|done].
  apply bool_decide_eq_true in Hc1 as ->.
  apply plus_greedy_inv in H as (w1 & s2 & -> & Hw1 & H).
  apply plus_greedy_inv in H as (t1 & s3 & -> & Ht1 & H).
  apply plus_greedy_inv in H as (w2 & s4 & -> & Hw2 & H).
  apply plus_greedy_inv in H as (t2 & s5 & -> & Ht2 & H).
  apply plus_greedy_inv in H as (w3 & d & -> & Hw3 & H).
  cbn [regex_run] in H.
  destruct (decide (d = "")) as [->|Hd]; [done|].
  erewrite plus_greedy_any in H; [|done|reflexivity].
  rewrite consumed_all in H.
  injection H as <-.
  exists tag, d. split; [|done].
  exists w1, t1, w2, t2, w3. by rewrite !str_app_cons, !str_app_nil_l.
Qed.

Lemma tagged_shape_not_marker msg tag d :
  tagged_shape msg tag d →
  startswith msg "START" = false ∧ startswith msg "END" = false
  ∧ startswith msg "REPORT" = false.
Proof. by intros (w1 & t1 & w2 & t2 & w3 & -> & _). Qed.

Lemma tagged_shape_detail_suffix msg tag d :
  tagged_shape msg tag d → ∃ s, msg = s +:+ d.
Proof.
  intros (w1 & t1 & w2 & t2 & w3 & -> & _).
  exists ("[" +:+ tag +:+ "]" +:+ w1 +:+ t1 +:+ w2 +:+ t2 +:+ w3).
  by rewrite !str_app_assoc.
Qed.

End TaggedPattern.

(** ** The report formatter *)

Section Formatter.

Variable fromtimestamp : Z → result Z.

Implicit Types (event : log_event) (events : list log_event) (msg s : string).

Local Arguments ascii_dec : simpl never.

Lemma report_not_marker msg :
  startswith msg "REPORT" = true →
  startswith msg "START" = false ∧ startswith msg "END" = false.
Proof.
  destruct msg as [|c msg]; [done|]. unfold startswith. simpl.
  destruct (ascii_dec "R" c) as [<-|]; [done|discriminate].
Qed.

Lemma digit_not_newline d : 0 ≤ d < 10 → is_newline (digit d) = false.
Proof.
  intros Hd.
  assert (d = 0 ∨ d = 1 ∨ d = 2 ∨ d = 3 ∨ d = 4 ∨ d = 5 ∨ d = 6 ∨ d = 7
          ∨ d = 8 ∨ d = 9) as Hcases by lia.
  destruct_or!; by subst.
Qed.

Lemma two_digits_no_newline n : 0 ≤ n < 100 → count_newlines (two_digits n) = 0%nat.
Proof.
  intros Hn. unfold two_digits. cbn [count_newlines].
  rewrite !digit_not_newline; [done|..].
  - apply Z.mod_pos_bound. lia.
  - split; [apply Z.div_pos; lia|apply Z.div_lt_upper_bound; lia].
Qed.

Lemma strftime_HMS_no_newline dt : count_newlines (strftime_HMS dt) = 0%nat.
Proof.
  unfold strftime_HMS.
  set (sod := dt mod 86400).
  assert (0 ≤ sod < 86400) as Hsod by (apply Z.mod_pos_bound; lia).
  rewrite !count_newlines_app, !two_digits_no_newline; [done|..].
  - pose proof (Z.mod_pos_bound sod 60). lia.
  - pose proof (Z.mod_pos_bound (sod / 60) 60). lia.
  - split; [apply Z.div_pos; lia|apply Z.div_lt_upper_bound; lia].
Qed.

(** The two ways [format_log_event] raises. *)
Lemma format_log_event_no_message event :
  message event = None → format_log_event fromtimestamp event = inl (KeyError "message").
Proof. intros Hmsg. unfold format_log_event, getitem_message. by rewrite Hmsg. Qed.

Lemma format_log_event_inv event s :
  format_log_event fromtimestamp event = inr s → renderable fromtimestamp event.
Proof.
  unfold renderable, accepted, has_message, format_log_event, getitem_message.
  destruct (message event); [|done]. simpl.
  destruct (fromtimestamp (timestamp event)) as [e|dt]; [done|]. by eauto.
Qed.

(** The four branches of [format_log_event] on an event with a message
    and an accepted timestamp. *)
Lemma format_log_event_message event msg dt :
  message event = Some msg → fromtimestamp (timestamp event) = inr dt →
  format_log_event fromtimestamp event =
    inr (let ts := strftime_HMS dt in
         if startswith msg "START" then ts +:+ " " +:+ ljust 7 "START" +:+ newline
         else if startswith msg "END" then ts +:+ " " +:+ ljust 7 "END" +:+ newline
         else if startswith msg "REPORT" then ""
         else terminated
                match re_match tagged_line_re msg with
                | Some m => ts +:+ " " +:+ ljust 7 (group m 1) +:+ " " +:+ group m 2
                | None => ts +:+ " " +:+ msg
                end).
Proof.
  intros Hmsg Hdt. unfold format_log_event, getitem_message. rewrite Hmsg. simpl.
  rewrite Hdt. simpl.
  destruct (startswith msg "START"); [done|].
  destruct (startswith msg "END"); [done|].
  by destruct (startswith msg "REPORT").
Qed.

Lemma format_log_event_report event dt :
  is_report event = true → fromtimestamp (timestamp event) = inr dt →
  format_log_event fromtimestamp event = inr "".
Proof.
  unfold is_report. destruct (message event) as [msg|] eqn:Hmsg; [|done].
  intros Hrep Hdt. rewrite (format_log_event_message _ _ _ Hmsg Hdt). simpl.
  destruct (report_not_marker _ Hrep) as [-> ->]. by rewrite Hrep.
Qed.

(** A rendered line: the time, then a non-empty body, ended by a line
    break. *)
Lemma rendered_line ts body :
  count_newlines ts = 0%nat → body ≠ "" →
  terminated (ts +:+ body) ≠ ""
  ∧ last_is_newline (terminated (ts +:+ body)) = true
  ∧ (single_line body = true → count_newlines (terminated (ts +:+ body)) = 1%nat).
Proof.
  intros Hts Hbody. split_and!.
  - intros Hnil. pose proof (terminated_newline (ts +:+ body)) as Hl.
    by rewrite Hnil in Hl.
  - apply terminated_newline.
  - intros Hsingle. apply count_newlines_terminated.
    by apply single_line_app_l.
Qed.

Lemma marker_line ts marker :
  count_newlines ts = 0%nat → count_newlines marker = 0%nat →
  ts +:+ " " +:+ marker +:+ newline ≠ ""
  ∧ last_is_newline (ts +:+ " " +:+ marker +:+ newline) = true
  ∧ count_newlines (ts +:+ " " +:+ marker +:+ newline) = 1%nat.
Proof.
  intros Hts Hmarker.
  assert (last_is_newline (ts +:+ " " +:+ marker +:+ newline) = true) as Hl.
  { rewrite <- !str_app_assoc. apply last_is_newline_newline. }
  split_and!; [|done|].
  - intros Hnil. by rewrite Hnil in Hl.
  - rewrite !count_newlines_app, Hts, Hmarker. done.
Qed.

Lemma count_newlines_upper tag : all_chars is_upper tag = true → count_newlines tag = 0%nat.
Proof.
  apply count_newlines_all_chars. intros c Hc. unfold is_newline.
  apply bool_decide_eq_false_2. by intros ->.
Qed.

Lemma count_newlines_ljust n tag :
  count_newlines tag = 0%nat → count_newlines (ljust n tag) = 0%nat.
Proof.
  intros Htag. unfold ljust. by rewrite count_newlines_app, Htag, count_newlines_spaces.
Qed.

(** Every rendering is empty, for a REPORT message, or ends its line; a
    one-line message is rendered as one line. *)
Lemma format_log_event_line event msg dt :
  message event = Some msg → fromtimestamp (timestamp event) = inr dt →
  ∃ s, format_log_event fromtimestamp event = inr s
       ∧ (s = "" ↔ startswith msg "REPORT" = true)
       ∧ (s ≠ "" → last_is_newline s = true)
       ∧ (single_line msg = true → s ≠ "" → count_newlines s = 1%nat).
Proof.
  intros Hmsg Hdt. rewrite (format_log_event_message _ _ _ Hmsg Hdt).
  eexists. split; [done|]. simpl.
  pose proof (strftime_HMS_no_newline dt) as Hts.
  set (ts := strftime_HMS dt) in *.
  destruct (startswith msg "START") eqn:Hstart.
  { destruct (marker_line ts (ljust 7 "START") Hts eq_refl) as (Hne & Hl & Hc).
    split_and!; [|done..]. split; [done|].
    intros Hrep. apply report_not_marker in Hrep as [? _]. congruence. }
  destruct (startswith msg "END") eqn:Hend.
  { destruct (marker_line ts (ljust 7 "END") Hts eq_refl) as (Hne & Hl & Hc).
    split_and!; [|done..]. split; [done|].
    intros Hrep. apply report_not_marker in Hrep as [_ ?]. congruence. }
  destruct (startswith msg "REPORT") eqn:Hreport; [done|].
  destruct (re_match tagged_line_re msg) as [m|] eqn:Hmatch.
  - apply re_match_tagged_inv in Hmatch as (tag & d & Hshape & ->).
    unfold group, tagged_groups. rewrite lookup_insert_ne by done.
    rewrite !lookup_insert_eq. simpl.
    destruct (tagged_shape_detail_suffix _ _ _ Hshape) as (pre & Hpre).
    destruct Hshape as (_ & _ & _ & _ & _ & _ & [_ Htag]%run_of_all_chars & _ & _
                        & _ & _ & _ & Hd).
    destruct (rendered_line ts (" " +:+ ljust 7 tag +:+ " " +:+ d) Hts)
      as (Hne & Hl & Hc); [done|].
    split_and!; [done|done|]. intros Hsingle _. apply Hc.
    rewrite <- !str_app_assoc. apply single_line_app_l.
    + rewrite !count_newlines_app, count_newlines_ljust; [done|].
      by apply count_newlines_upper.
    + apply (single_line_app_r pre). by rewrite <- Hpre.
  - destruct (rendered_line ts (" " +:+ msg) Hts) as (Hne & Hl & Hc); [done|].
    split_and!; [done|done|]. intros Hsingle _. apply Hc.
    by apply (single_line_app_l " ").
Qed.

End Formatter.

Section Body.

Variable fromtimestamp : Z → result Z.

Implicit Types (event : log_event) (events : list log_event) (lines : list string).

Lemma join_app lines1 lines2 : join (lines1 ++ lines2) = join lines1 +:+ join lines2.
Proof.
  induction lines1 as [|s lines1 IH]; [done|]. simpl.
  by rewrite IH, str_app_assoc.
Qed.

Lemma map_result_app {A B} (f : A → result B) (l1 l2 : list A) :
  map_result f (l1 ++ l2)
  = xs ← map_result f l1; ys ← map_result f l2; inr (xs ++ ys).
Proof.
  induction l1 as [|x l1 IH]; simpl.
  - by destruct (map_result f l2).
  - destruct (f x) as [e|y]; [done|]. simpl. rewrite IH.
    destruct (map_result f l1) as [e|xs]; [done|]. simpl.
    by destruct (map_result f l2).
Qed.

Lemma map_result_cons_inv {A B} (f : A → result B) (x : A) (l : list A) (ys : list B) :
  map_result f (x :: l) = inr ys →
  ∃ y ys', f x = inr y ∧ map_result f l = inr ys' ∧ ys = y :: ys'.
Proof.
  simpl. destruct (f x) as [e|y]; [done|]. simpl.
  destruct (map_result f l) as [e|ys']; [done|]. simpl. intros [= <-]. by eauto.
Qed.

(** The events are rendered exactly when each of them can be. *)
Lemma map_result_format_renderable events :
  (∃ lines, map_result (format_log_event fromtimestamp) events = inr lines)
  ↔ Forall (renderable fromtimestamp) events.
Proof.
  induction events as [|event events IH].
  - split; [constructor|by exists []].
  - split.
    + intros (lines & (s & lines' & Hs & Hlines & _)%map_result_cons_inv).
      constructor; [by eapply format_log_event_inv|]. apply IH. by eauto.
    + intros [Hevent [lines Hlines]%IH]%Forall_cons.
      destruct Hevent as [Hmsg [dt Hdt]]. unfold has_message in Hmsg.
      destruct (message event) as [msg|] eqn:Hmessage; [|done].
      destruct (format_log_event_line fromtimestamp _ _ _ Hmessage Hdt) as (s & Hs & _).
      exists (s :: lines). simpl. by rewrite Hs, Hlines.
Qed.

(** The first event that cannot be rendered decides the exception. *)
Lemma map_result_format_first_failure before event after e :
  Forall (renderable fromtimestamp) before →
  format_log_event fromtimestamp event = inl e →
  map_result (format_log_event fromtimestamp) (before ++ event :: after) = inl e.
Proof.
  intros [lines Hlines]%map_result_format_renderable Hevent.
  rewrite map_result_app, Hlines. simpl. by rewrite Hevent.
Qed.

Lemma format_log_event_returned event s :
  format_log_event fromtimestamp event = inr s →
  (s = "" ↔ is_report event = true)
  ∧ (s ≠ "" → last_is_newline s = true)
  ∧ (one_line event = true → s ≠ "" → count_newlines s = 1%nat).
Proof.
  intros Hs. destruct (format_log_event_inv _ _ _ Hs) as [Hmsg [dt Hdt]].
  unfold has_message, is_report, one_line in *.
  destruct (message event) as [msg|] eqn:Hmessage; [|done].
  destruct (format_log_event_line fromtimestamp _ _ _ Hmessage Hdt)
    as (s' & Hs' & Hempty & Hnl & Hone).
  rewrite Hs in Hs'. by injection Hs' as <-.
Qed.

(** The renderings of a sequence of events, joined. *)
Lemma format_events_lines events lines :
  map_result (format_log_event fromtimestamp) events = inr lines →
  (join lines = "" ∨ last_is_newline (join lines) = true)
  ∧ (forallb one_line events = true →
     count_newlines (join lines) = length (rendered events)).
Proof.
  revert lines. induction events as [|event events IH]; intros lines.
  { intros [= <-]. by auto. }
  intros (s & lines' & Hs & Hlines & ->)%map_result_cons_inv.
  destruct (IH lines' Hlines) as (Hend & Hcount).
  destruct (format_log_event_returned _ _ Hs) as (Hempty & Hnl & Hone).
  change (join (s :: lines')) with (s +:+ join lines'). split.
  - destruct Hend as [->| Hend].
    + rewrite str_app_nil_r. destruct (decide (s = "")); auto.
    + right. rewrite last_is_newline_app; [done|].
      intros Hnil. by rewrite Hnil in Hend.
  - simpl. intros [Hline Hlines1]%andb_true_iff.
    rewrite count_newlines_app, (Hcount Hlines1).
    destruct (is_report event) eqn:Hrep; simpl.
    + by rewrite (proj2 Hempty eq_refl).
    + rewrite Hone; [done|done|]. intros Hnil%Hempty. congruence.
Qed.

End Body.

(** C5, as the code has it: a message of the tagged shape (the bracketed
    tag of capital letters at its very start, with no whitespace before
    it), on an event whose timestamp the conversion accepts, is rendered
    as the time, the tag padded to width 7 and the detail, ended by a line
    break; the detail is taken from its first character that is not
    whitespace. *)
Theorem format_tagged_line fromtimestamp event msg tag d dt :
  message event = Some msg →
  fromtimestamp (timestamp event) = inr dt →
  tagged_shape msg tag d →
  format_log_event fromtimestamp event
  = inr (strftime_HMS dt +:+ " " +:+ ljust 7 tag +:+ " "
         +:+ terminated (captured_detail d)).
Proof.
  intros Hmsg Hdt Hshape. rewrite (format_log_event_message _ _ _ _ Hmsg Hdt). simpl.
  destruct (tagged_shape_not_marker _ _ _ Hshape) as (-> & -> & ->).
  rewrite (re_match_tagged_shape _ _ _ Hshape).
  unfold group, tagged_groups. rewrite lookup_insert_ne by done.
  rewrite !lookup_insert_eq. simpl. f_equal.
  destruct Hshape as (_ & _ & _ & _ & _ & _ & _ & _ & _ & _ & _ & _ & Hd).
  pose proof (captured_detail_nonempty d Hd) as Hne.
  rewrite <- !str_app_assoc. by rewrite terminated_app.
Qed.

Lemma format_tagged_line_witness :
  format_log_event utc_fromtimestamp
    (ev "[ERROR] 2018-03-01T10:00:01Z 7f3a boom detail" 1050)
  = inr ("00:00:01" +:+ " " +:+ ljust 7 "ERROR" +:+ " "
         +:+ terminated (captured_detail "boom detail")).
Proof.
  apply (format_tagged_line utc_fromtimestamp
           (ev "[ERROR] 2018-03-01T10:00:01Z 7f3a boom detail" 1050)
           "[ERROR] 2018-03-01T10:00:01Z 7f3a boom detail" "ERROR" "boom detail" 1
           eq_refl eq_refl).
  exists " ", "2018-03-01T10:00:01Z", " ", "7f3a", " ".
  split_and!; [reflexivity..|discriminate].
Defined.

(** C5 as stated fails: with whitespace before the bracketed tag the
    message is rendered as a plain line, the whole message after the time;
    the tagged rendering would be the second string. *)
Lemma format_leading_space_plain :
  format_log_event utc_fromtimestamp (ev " [INFO] 2018-03-01T10:00:01Z 7f3a detail" 1050)
  = inr ("00:00:01  [INFO] 2018-03-01T10:00:01Z 7f3a detail" +:+ newline)
  ∧ format_log_event utc_fromtimestamp
      (ev " [INFO] 2018-03-01T10:00:01Z 7f3a detail" 1050)
    ≠ inr ("00:00:01 INFO    detail" +:+ newline).
Proof. split; [by vm_compute|]. vm_compute. discriminate. Qed.

(** C6: the subject is chosen in strict priority order: a positive error
    count gives the ERRORS subject whatever the warning count is; otherwise
    a positive warning count gives the WARNINGS subject; otherwise the
    subject is the plain one. *)
Theorem create_message_subject_priority i context :
  (0 < errors (info i) →
   create_message_subject i context
   = display_name context +:+ " request completed with ERRORS!")
  ∧ (¬ 0 < errors (info i) → 0 < warnings (info i) →
     create_message_subject i context
     = display_name context +:+ " request completed with WARNINGS!")
  ∧ (¬ 0 < errors (info i) → ¬ 0 < warnings (info i) →
     create_message_subject i context
     = display_name context +:+ " request completed").
Proof.
  unfold create_message_subject. split_and!.
  - intros ->%Z.ltb_lt. by rewrite str_app_assoc.
  - intros ->%Z.ltb_nlt ->%Z.ltb_lt. by rewrite str_app_assoc.
  - by intros ->%Z.ltb_nlt ->%Z.ltb_nlt.
Qed.

Lemma create_message_subject_priority_witness :
  create_message_subject (ReportInfo (RunInfo 1000 1100 100 1 3) "r" []) foo_context
  = "foo request completed with ERRORS!"
  ∧ create_message_subject (ReportInfo (RunInfo 1000 1100 100 0 3) "r" []) foo_context
    = "foo request completed with WARNINGS!"
  ∧ create_message_subject (ReportInfo (RunInfo 1000 1100 100 0 0) "r" []) foo_context
    = "foo request completed".
Proof.
  split_and!.
  - apply (create_message_subject_priority
             (ReportInfo (RunInfo 1000 1100 100 1 3) "r" []) foo_context).
    simpl. lia.
  - apply (create_message_subject_priority
             (ReportInfo (RunInfo 1000 1100 100 0 3) "r" []) foo_context);
      simpl; lia.
  - apply (create_message_subject_priority
             (ReportInfo (RunInfo 1000 1100 100 0 0) "r" []) foo_context);
      simpl; lia.
Defined.

(** C8, as the code has it: an event whose message starts with REPORT and
    whose timestamp the conversion accepts is rendered as the empty string,
    and the body of a report is the same with and without it.  (The
    timestamp is converted before the message is looked at.) *)
Theorem report_event_suppressed fromtimestamp str_datetime fmt_total_seconds event dt :
  is_report event = true →
  fromtimestamp (timestamp event) = inr dt →
  format_log_event fromtimestamp event = inr ""
  ∧ ∀ inf rid before after context,
      create_message_body fromtimestamp str_datetime fmt_total_seconds
        (ReportInfo inf rid (before ++ event :: after)) context
      = create_message_body fromtimestamp str_datetime fmt_total_seconds
          (ReportInfo inf rid (before ++ after)) context.
Proof.
  intros Hrep Hdt. split; [by eapply format_log_event_report|].
  intros inf rid before after context. unfold create_message_body. simpl.
  rewrite !map_result_app. simpl.
  rewrite (format_log_event_report _ _ _ Hrep Hdt). simpl.
  destruct (map_result _ before) as [e|xs]; [done|]. simpl.
  destruct (map_result _ after) as [e|ys]; [done|]. simpl.
  by rewrite !join_app.
Qed.

Lemma report_event_suppressed_witness :
  format_log_event utc_fromtimestamp (ev "REPORT RequestId: r Duration: 100.00 ms" 1100)
  = inr ""
  ∧ create_message_body utc_fromtimestamp pretty pretty
      (ReportInfo (RunInfo 1000 1100 100 0 0) "r"
         ([ev "START RequestId: r" 1000; ev "END RequestId: r" 1100]
          ++ ev "REPORT RequestId: r Duration: 100.00 ms" 1100 :: []))
      foo_context
    = create_message_body utc_fromtimestamp pretty pretty
        (ReportInfo (RunInfo 1000 1100 100 0 0) "r"
           ([ev "START RequestId: r" 1000; ev "END RequestId: r" 1100] ++ []))
        foo_context.
Proof.
  destruct (report_event_suppressed utc_fromtimestamp pretty pretty
              (ev "REPORT RequestId: r Duration: 100.00 ms" 1100) 1 eq_refl eq_refl)
    as [Hempty Hbody].
  split; [exact Hempty|apply Hbody].
Defined.

(** C8 as stated fails: a REPORT event stamped with the first millisecond
    of the year 10000 is not rendered as the empty string: the conversion
    of its timestamp raises, and so does the body of a report that holds
    it, while the body without it is made. *)
Lemma report_event_out_of_range :
  is_report (ev "REPORT RequestId: r" 253402300800000) = true
  ∧ format_log_event utc_fromtimestamp (ev "REPORT RequestId: r" 253402300800000)
    = inl (OutOfRange 253402300800000)
  ∧ create_message_body utc_fromtimestamp pretty pretty
      (ReportInfo (RunInfo 1000 1100 100 0 0) "r"
         [ev "START RequestId: r" 1000; ev "END RequestId: r" 1100;
          ev "REPORT RequestId: r" 253402300800000])
      foo_context
    = inl (OutOfRange 253402300800000)
  ∧ ∃ body,
      create_message_body utc_fromtimestamp pretty pretty
        (ReportInfo (RunInfo 1000 1100 100 0 0) "r"
           [ev "START RequestId: r" 1000; ev "END RequestId: r" 1100])
        foo_context
      = inr body.
Proof. split_and!; [by vm_compute..|]. eexists. by vm_compute. Qed.

(** C10, as the code has it: [format_log_event] returns a string exactly for
    an event with a message and a timestamp the conversion accepts; the
    string returned is empty, exactly for a REPORT message, or ends with a
    line break, and so do the joined renderings of a sequence of events; a
    message of one line is rendered as one line, so the joined renderings
    of one-line messages have one line per rendered event.  (A message
    with a line break inside it is rendered with that line break.) *)
Theorem format_log_event_lines fromtimestamp :
  (∀ event, (∃ s, format_log_event fromtimestamp event = inr s)
            ↔ renderable fromtimestamp event)
  ∧ (∀ event s, format_log_event fromtimestamp event = inr s →
       (s = "" ↔ is_report event = true)
       ∧ (s = "" ∨ endswith s newline = true)
       ∧ (one_line event = true → s ≠ "" → count_newlines s = 1%nat))
  ∧ (∀ events, (∃ lines, map_result (format_log_event fromtimestamp) events = inr lines)
               ↔ Forall (renderable fromtimestamp) events)
  ∧ (∀ events lines,
       map_result (format_log_event fromtimestamp) events = inr lines →
       (join lines = "" ∨ endswith (join lines) newline = true)
       ∧ (forallb one_line events = true →
          count_newlines (join lines) = length (rendered events))).
Proof.
  split_and!.
  - intros event. split.
    + intros [s Hs]. by eapply format_log_event_inv.
    + intros [Hmsg [dt Hdt]]. unfold has_message in Hmsg.
      destruct (message event) as [msg|] eqn:Hmessage; [|done].
      destruct (format_log_event_line fromtimestamp _ _ _ Hmessage Hdt) as (s & Hs & _).
      by exists s.
  - intros event s Hs.
    destruct (format_log_event_returned fromtimestamp _ _ Hs) as (Hempty & Hnl & Hone).
    split_and!; [done| |done].
    rewrite endswith_newline. destruct (decide (s = "")); auto.
  - apply map_result_format_renderable.
  - intros events lines Hlines.
    destruct (format_events_lines fromtimestamp _ _ Hlines) as (Hend & Hcount).
    split; [|done]. by rewrite endswith_newline.
Qed.

Lemma format_log_event_lines_witness :
  (join ["00:00:01 START  " +:+ newline; "00:00:01 ERROR   boom detail" +:+ newline;
         "00:00:01 END    " +:+ newline; ""] = ""
   ∨ endswith
       (join ["00:00:01 START  " +:+ newline; "00:00:01 ERROR   boom detail" +:+ newline;
              "00:00:01 END    " +:+ newline; ""]) newline = true)
  ∧ (forallb one_line
       [ev "START RequestId: r" 1000;
        ev "[ERROR] 2018-03-01T10:00:01Z r boom detail" 1050;
        ev "END RequestId: r" 1100; ev "REPORT RequestId: r" 1100] = true →
     count_newlines
       (join ["00:00:01 START  " +:+ newline; "00:00:01 ERROR   boom detail" +:+ newline;
              "00:00:01 END    " +:+ newline; ""])
     = length (rendered
                 [ev "START RequestId: r" 1000;
                  ev "[ERROR] 2018-03-01T10:00:01Z r boom detail" 1050;
                  ev "END RequestId: r" 1100; ev "REPORT RequestId: r" 1100])).
Proof.
  apply (format_log_event_lines utc_fromtimestamp). by vm_compute.
Defined.

(** C10 as stated fails: one event whose message has a line break inside
    it is rendered as two output lines. *)
Lemma format_two_line_message :
  format_log_event utc_fromtimestamp (ev ("boom" +:+ newline +:+ "  at handler") 1050)
  = inr ("00:00:01 boom" +:+ newline +:+ "  at handler" +:+ newline)
  ∧ count_newlines ("00:00:01 boom" +:+ newline +:+ "  at handler" +:+ newline) = 2%nat
  ∧ length (rendered [ev ("boom" +:+ newline +:+ "  at handler") 1050]) = 1%nat.
Proof. split_and!; by vm_compute. Qed.

(** The scenario of a run of function foo: one error line between the
    markers, and the REPORT line that is dropped from the log. *)
Example run_of_foo :
  analyze_run_events "r"
    [ev "START Request" 1000; ev "[ERROR] boom detail" 1050;
     ev "END Request" 1100; ev "REPORT Duration: 100.00 ms" 1100] foo_context
  = inr (RunInfo 1000 1100 100 1 0)
  ∧ create_message_subject
      (ReportInfo (RunInfo 1000 1100 100 1 0) "r"
         [ev "START Request" 1000; ev "[ERROR] boom detail" 1050;
          ev "END Request" 1100; ev "REPORT Duration: 100.00 ms" 1100])
      foo_context
    = "foo request completed with ERRORS!"
  ∧ map_result (format_log_event utc_fromtimestamp)
      [ev "START Request" 1000; ev "[ERROR] boom detail" 1050;
       ev "END Request" 1100; ev "REPORT Duration: 100.00 ms" 1100]
    = inr ["00:00:01 START  " +:+ newline;
           "00:00:01 [ERROR] boom detail" +:+ newline;
           "00:00:01 END    " +:+ newline; ""].
Proof. split_and!; by vm_compute. Qed.

(** ** More on the run analyzer *)

Section AnalyzerCounts.

Implicit Types (events : list log_event) (event : log_event) (st : scan).

Local Arguments ascii_dec : simpl never.

Lemma bracket_not_marker (msg : string) :
  startswith msg "[ERROR]" = true ∨ startswith msg "[WARNING]" = true →
  startswith msg "START" = false ∧ startswith msg "END" = false.
Proof.
  destruct msg as [|c msg]; [by intros [|]|]. unfold startswith. simpl.
  destruct (ascii_dec "[" c) as [<-|]; [done|]. by intros [|].
Qed.

Lemma error_not_warning (msg : string) :
  startswith msg "[ERROR]" = true → startswith msg "[WARNING]" = false.
Proof.
  destruct msg as [|c msg]; [done|]. unfold startswith. simpl.
  destruct (ascii_dec "[" c) as [<-|]; [|done].
  destruct msg as [|c' msg]; [done|]. simpl.
  destruct (ascii_dec "E" c') as [<-|]; [done|discriminate].
Qed.

Lemma scan_errors_scan_event st event :
  scan_errors (scan_event st event)
  = scan_errors st + (if is_error_line event then 1 else 0).
Proof.
  unfold scan_event, is_error_line. destruct (message event) as [msg|]; [|simpl; lia].
  destruct (startswith msg "[ERROR]") eqn:Herr.
  - by destruct (bracket_not_marker msg) as [-> ->]; [left|].
  - repeat case_match; simpl; lia.
Qed.

Lemma scan_warnings_scan_event st event :
  scan_warnings (scan_event st event)
  = scan_warnings st + (if is_warning_line event then 1 else 0).
Proof.
  unfold scan_event, is_warning_line. destruct (message event) as [msg|]; [|simpl; lia].
  destruct (startswith msg "[WARNING]") eqn:Hwarn.
  - destruct (bracket_not_marker msg) as [-> ->]; [by right|].
    destruct (startswith msg "[ERROR]") eqn:Herr.
    + apply error_not_warning in Herr. congruence.
    + done.
  - repeat case_match; simpl; lia.
Qed.

Lemma scan_errors_scan_events events :
  scan_errors (scan_events events)
  = Z.of_nat (length (List.filter is_error_line events)).
Proof.
  induction events as [|event events IH] using rev_ind; [done|].
  rewrite scan_events_snoc, scan_errors_scan_event, filter_snoc, length_app, IH.
  destruct (is_error_line event); simpl; lia.
Qed.

Lemma scan_warnings_scan_events events :
  scan_warnings (scan_events events)
  = Z.of_nat (length (List.filter is_warning_line events)).
Proof.
  induction events as [|event events IH] using rev_ind; [done|].
  rewrite scan_events_snoc, scan_warnings_scan_event, filter_snoc, length_app, IH.
  destruct (is_warning_line event); simpl; lia.
Qed.

Lemma scan_event_other st event :
  is_start event = false → is_end event = false →
  is_error_line event = false → is_warning_line event = false →
  scan_event st event = st.
Proof.
  unfold is_start, is_end, is_error_line, is_warning_line, scan_event.
  destruct (message event) as [msg|]; [|done]. by intros -> -> -> ->.
Qed.

Lemma scan_events_other before event after :
  is_start event = false → is_end event = false →
  is_error_line event = false → is_warning_line event = false →
  scan_events (before ++ event :: after) = scan_events (before ++ after).
Proof.
  intros Hs He Herr Hwarn. unfold scan_events.
  rewrite !foldl_app. simpl. by rewrite scan_event_other.
Qed.

End AnalyzerCounts.

(** X1: the error and warning counts of a summary are the numbers of events
    whose message starts with [[ERROR]], resp. [[WARNING]]. *)
Theorem analyze_counts rid events context i :
  analyze_run_events rid events context = inr i →
  errors i = Z.of_nat (length (List.filter is_error_line events))
  ∧ warnings i = Z.of_nat (length (List.filter is_warning_line events)).
Proof.
  rewrite analyze_run_events_cases. repeat case_decide; try discriminate.
  intros [= <-]. simpl.
  by rewrite scan_errors_scan_events, scan_warnings_scan_events.
Qed.

Lemma analyze_counts_witness :
  errors (RunInfo 1000 1100 100 2 1)
  = Z.of_nat (length (List.filter is_error_line
       [ev "START RequestId: r" 1000; ev "[ERROR] boom" 1010; ev "[WARNING] hm" 1020;
        ev "[ERROR] again" 1030; ev "done" 1040; ev "END RequestId: r" 1100]))
  ∧ warnings (RunInfo 1000 1100 100 2 1)
    = Z.of_nat (length (List.filter is_warning_line
         [ev "START RequestId: r" 1000; ev "[ERROR] boom" 1010; ev "[WARNING] hm" 1020;
          ev "[ERROR] again" 1030; ev "done" 1040; ev "END RequestId: r" 1100])).
Proof.
  apply (analyze_counts "r" _ foo_context). reflexivity.
Defined.

(** X2: the analysis returns a summary exactly when the last START event
    and the last END event both have a strictly positive timestamp, and the
    summary is then made of these two timestamps, their difference and the
    two counts. *)
Theorem analyze_returns_iff rid events context i :
  analyze_run_events rid events context = inr i
  ↔ ∃ s e, last_ts is_start events = Some s ∧ last_ts is_end events = Some e
           ∧ 0 < s ∧ 0 < e
           ∧ i = RunInfo s e (e - s)
                   (Z.of_nat (length (List.filter is_error_line events)))
                   (Z.of_nat (length (List.filter is_warning_line events))).
Proof.
  rewrite analyze_run_events_cases, scan_errors_scan_events, scan_warnings_scan_events.
  split.
  - repeat case_decide; try discriminate. intros [= <-].
    destruct (last_ts is_start events) as [s|]; [|simpl in *; lia].
    destruct (last_ts is_end events) as [e|]; [|simpl in *; lia].
    by exists s, e.
  - intros (s & e & Hs & He & Hps & Hpe & ->). rewrite Hs, He. simpl.
    destruct (decide (events = [])) as [->|_]; [discriminate Hs|].
    by rewrite !decide_True by done.
Qed.

(** X3: an event the analyzer has no rule for (no message, or a message
    that starts with none of the four prefixes) changes nothing: the
    analysis is the same without it, as long as an event remains. *)
Theorem analyze_ignores_other_events rid before event after context :
  is_start event = false → is_end event = false →
  is_error_line event = false → is_warning_line event = false →
  before ++ after ≠ [] →
  analyze_run_events rid (before ++ event :: after) context
  = analyze_run_events rid (before ++ after) context.
Proof.
  intros Hs He Herr Hwarn Hne. unfold analyze_run_events.
  rewrite (scan_events_other _ _ _ Hs He Herr Hwarn).
  destruct (before ++ after) as [|x l] eqn:Hl; [done|].
  assert ((0 <? Z.of_nat (length (before ++ event :: after))) = true) as ->.
  { apply Z.ltb_lt. rewrite length_app. simpl. lia. }
  done.
Qed.

Lemma analyze_ignores_other_events_witness :
  analyze_run_events "r"
    ([ev "START RequestId: r" 1000] ++ LogEvent None 1050 None
       :: [ev "END RequestId: r" 1100]) foo_context
  = analyze_run_events "r"
      ([ev "START RequestId: r" 1000] ++ [ev "END RequestId: r" 1100]) foo_context.
Proof.
  apply analyze_ignores_other_events; [reflexivity..|discriminate].
Defined.

(** ** More on the run extractor *)

Section ExtractorIds.

Implicit Types (events : list log_event) (event : log_event) (ids : list string).

(** The loop collects the identifiers of the END-typed events, in order. *)
Lemma collect_ids_end_ids events : collect_ids events = end_ids events.
Proof.
  unfold collect_ids, end_ids. induction events as [|event events IH]; [done|].
  simpl. fold (omap end_request_id events). rewrite end_request_id_typed, IH.
  by destruct (end_typed event).
Qed.

Lemma filter_end_typed_idem events :
  List.filter end_typed (List.filter end_typed events) = List.filter end_typed events.
Proof.
  induction events as [|event events IH]; [done|]. simpl.
  destruct (end_typed event) eqn:Ht; [|done]. simpl. by rewrite Ht, IH.
Qed.

Lemma get_request_ids_cases events context :
  get_request_ids events context =
    if decide (end_ids events = []) then inl (AssertionError no_end_events_msg)
    else if decide (NoDup (end_ids events)) then inr (end_ids events)
    else inl (AssertionError duplicate_ids_msg).
Proof.
  unfold get_request_ids. rewrite collect_ids_end_ids.
  destruct (end_ids events) as [|id ids] eqn:Hids; [done|].
  rewrite decide_False by done.
  change (0 <? Z.of_nat (length (id :: ids))) with true.
  destruct (decide (NoDup (id :: ids))) as [Hnd|Hnd].
  - by rewrite bool_decide_eq_true_2 by (by rewrite size_list_to_set).
  - rewrite bool_decide_eq_false_2; [done|].
    intros Hlen. by apply Hnd, size_list_to_set_NoDup.
Qed.

End ExtractorIds.

(** X4: [get_request_ids] returns a list exactly when the identifiers of
    the END-typed events are at least one and all different, and the list
    is then these identifiers in arrival order (an END-typed event without
    [requestId] counts for nothing). *)
Theorem get_request_ids_returns_iff events context ids :
  get_request_ids events context = inr ids
  ↔ ids = end_ids events ∧ ids ≠ [] ∧ NoDup ids.
Proof.
  rewrite get_request_ids_cases. split.
  - repeat case_decide; try discriminate. by intros [= <-].
  - intros (-> & Hne & Hnd). by rewrite decide_False, decide_True.
Qed.

(** X5: the result depends on the END-typed events only: the other events
    of the batch can be dropped. *)
Theorem get_request_ids_end_typed_only events context :
  get_request_ids events context
  = get_request_ids (List.filter end_typed events) context.
Proof.
  rewrite !get_request_ids_cases. unfold end_ids.
  by rewrite filter_end_typed_idem.
Qed.

(** ** More on the report formatter *)

Section FormatterCases.

Variable fromtimestamp : Z → result Z.

Implicit Types (event : log_event) (events : list log_event) (msg tag d : string).

Local Arguments ascii_dec : simpl never.

(** A tag of capital letters is closed by the first bracket. *)
Lemma upper_tag_prefix p tag rest :
  all_chars is_upper p = true → all_chars is_upper tag = true →
  String.prefix (p +:+ "]") (tag +:+ "]" +:+ rest) = true → tag = p.
Proof.
  revert tag. induction p as [|a p IH]; intros [|c tag]; [done|..].
  - rewrite !str_app_cons, str_app_nil_l. simpl.
    intros _ [Hc _]%andb_true_iff. destruct (ascii_dec "]" c) as [<-|]; done.
  - rewrite !str_app_cons, str_app_nil_l. simpl.
    intros [Ha _]%andb_true_iff _. destruct (ascii_dec a "]") as [->|]; done.
  - rewrite !str_app_cons. simpl.
    intros [_ Hp]%andb_true_iff [_ Htag]%andb_true_iff.
    destruct (ascii_dec a c) as [->|]; [|done].
    intros Hpre. f_equal. by apply IH.
Qed.

Lemma tagged_shape_prefix msg tag d p :
  tagged_shape msg tag d → all_chars is_upper p = true →
  startswith msg ("[" +:+ p +:+ "]") = true ↔ tag = p.
Proof.
  intros (w1 & t1 & w2 & t2 & w3 & -> & [_ Htag]%run_of_all_chars & _) Hp.
  unfold startswith. rewrite !str_app_cons, !str_app_nil_l. simpl.
  destruct (ascii_dec "[" "[") as [_|]; [|done]. split.
  - by apply upper_tag_prefix.
  - intros ->. clear. induction p as [|a p IH]; simpl.
    + by destruct (w1 +:+ _).
    + by destruct (ascii_dec a a).
Qed.

Lemma timedelta_milliseconds_returns (span : Z) :
  (∃ span', timedelta_milliseconds span = inr span')
  ↔ -999999999 ≤ span / 86400000 ≤ 999999999.
Proof.
  unfold timedelta_milliseconds.
  destruct ((-999999999 <=? span / 86400000) && (span / 86400000 <=? 999999999))
    eqn:Hspan.
  - apply andb_true_iff in Hspan as [?%Z.leb_le ?%Z.leb_le]. split; [lia|by eexists].
  - split; [by intros [span' ?]|]. intros [??].
    apply andb_false_iff in Hspan as [?%Z.leb_gt|?%Z.leb_gt]; lia.
Qed.

(** The body is made exactly when the three conversions it needs all
    return. *)
Lemma create_message_body_returns str_datetime fmt_total_seconds
    (i : report_info) (context : handler_context) :
  (∃ body, create_message_body fromtimestamp str_datetime fmt_total_seconds i context
           = inr body)
  ↔ Forall (renderable fromtimestamp) (events i)
    ∧ accepted fromtimestamp (start (info i))
    ∧ -999999999 ≤ duration (info i) / 86400000 ≤ 999999999.
Proof.
  rewrite <- map_result_format_renderable, <- timedelta_milliseconds_returns.
  unfold create_message_body, accepted.
  destruct (map_result _ (events i)) as [e|lines]; simpl.
  { split; [by intros [body ?]|by intros [[lines ?] _]]. }
  destruct (fromtimestamp (start (info i))) as [e|dt]; simpl.
  { split; [by intros [body ?]|by intros (_ & [dt ?] & _)]. }
  destruct (timedelta_milliseconds (duration (info i))) as [e|span]; simpl.
  { split; [by intros [body ?]|by intros (_ & _ & [span ?])]. }
  split; [intros _; split_and!; by eexists|intros _; by eexists].
Qed.

Lemma create_message_body_first_failure str_datetime fmt_total_seconds
    (i : report_info) (context : handler_context) before event after e :
  events i = before ++ event :: after →
  Forall (renderable fromtimestamp) before →
  format_log_event fromtimestamp event = inl e →
  create_message_body fromtimestamp str_datetime fmt_total_seconds i context = inl e.
Proof.
  intros Hevents Hbefore Hevent. unfold create_message_body.
  by rewrite Hevents, (map_result_format_first_failure _ _ _ _ _ Hbefore Hevent).
Qed.

End FormatterCases.

(** X6: the pattern of the formatter matches exactly the messages of the
    tagged shape: a bracketed tag of capital letters at the very start,
    whitespace, a token, whitespace, a token, whitespace and a non-empty
    detail. *)
Theorem tagged_pattern_matches_iff msg :
  (∃ m, re_match tagged_line_re msg = Some m) ↔ (∃ tag d, tagged_shape msg tag d).
Proof.
  split.
  - intros (m & Hm). apply re_match_tagged_inv in Hm as (tag & d & Hshape & _).
    by exists tag, d.
  - intros (tag & d & Hshape). eexists. by apply re_match_tagged_shape.
Qed.

(** X7: a message that starts with none of the three markers and is not of
    the tagged shape, on an event whose timestamp the conversion accepts,
    is rendered as a plain line: the time, a space and the message as it
    is, with a line break added unless it ends with one. *)
Theorem format_plain_line fromtimestamp event msg dt :
  message event = Some msg →
  fromtimestamp (timestamp event) = inr dt →
  startswith msg "START" = false → startswith msg "END" = false →
  startswith msg "REPORT" = false →
  (∀ tag d, ¬ tagged_shape msg tag d) →
  format_log_event fromtimestamp event
  = inr (strftime_HMS dt +:+ terminated (" " +:+ msg)).
Proof.
  intros Hmsg Hdt Hs He Hr Hshape.
  rewrite (format_log_event_message _ _ _ _ Hmsg Hdt). simpl.
  rewrite Hs, He, Hr.
  destruct (re_match tagged_line_re msg) as [m|] eqn:Hm.
  - apply re_match_tagged_inv in Hm as (tag & d & Htagged & _).
    by destruct (Hshape tag d).
  - by rewrite terminated_app.
Qed.

Lemma format_plain_line_witness :
  format_log_event utc_fromtimestamp (ev "[ERROR] boom detail" 1050)
  = inr (strftime_HMS 1 +:+ terminated (" " +:+ "[ERROR] boom detail")).
Proof.
  apply (format_plain_line utc_fromtimestamp (ev "[ERROR] boom detail" 1050)
           "[ERROR] boom detail" 1); [reflexivity..|].
  intros tag d Hshape.
  pose proof (re_match_tagged_shape _ _ _ Hshape) as Hm.
  vm_compute in Hm. discriminate Hm.
Defined.

(** X8: [create_message_body] returns a body exactly when every event has
    a message and a timestamp the conversion accepts, the start of the run
    is accepted too and the duration is one a [timedelta] can hold.  When
    the first event that cannot be rendered is one without a message, it
    raises [KeyError('message')], although the analyzer accepts such
    events. *)
Theorem create_message_body_key_error fromtimestamp str_datetime fmt_total_seconds
    i context :
  ((∃ body, create_message_body fromtimestamp str_datetime fmt_total_seconds i context
            = inr body)
   ↔ Forall (renderable fromtimestamp) (events i)
     ∧ accepted fromtimestamp (start (info i))
     ∧ -999999999 ≤ duration (info i) / 86400000 ≤ 999999999)
  ∧ (∀ before event after,
       events i = before ++ event :: after →
       Forall (renderable fromtimestamp) before →
       message event = None →
       create_message_body fromtimestamp str_datetime fmt_total_seconds i context
       = inl (KeyError "message")).
Proof.
  split; [apply create_message_body_returns|].
  intros before event after Hevents Hbefore Hmsg.
  eapply create_message_body_first_failure; [done..|].
  by apply format_log_event_no_message.
Qed.

Lemma create_message_body_key_error_witness :
  create_message_body utc_fromtimestamp pretty pretty
    (ReportInfo (RunInfo 1000 1100 100 0 0) "r"
       [ev "START RequestId: r" 1000; LogEvent None 1050 None;
        ev "END RequestId: r" 1100])
    foo_context
  = inl (KeyError "message").
Proof.
  apply (proj2 (create_message_body_key_error utc_fromtimestamp pretty pretty
                  (ReportInfo (RunInfo 1000 1100 100 0 0) "r"
                     [ev "START RequestId: r" 1000; LogEvent None 1050 None;
                      ev "END RequestId: r" 1100])
                  foo_context)
           [ev "START RequestId: r" 1000] (LogEvent None 1050 None)
           [ev "END RequestId: r" 1100]); [reflexivity| |reflexivity].
  constructor; [|constructor]. split; [reflexivity|]. exists 1. reflexivity.
Defined.

(** X9: the analyzer and the formatter agree on tagged lines: a message of
    the tagged shape is counted as an error exactly when its tag is ERROR
    and as a warning exactly when its tag is WARNING. *)
Theorem tagged_line_counted event msg tag d :
  message event = Some msg → tagged_shape msg tag d →
  (is_error_line event = true ↔ tag = "ERROR")
  ∧ (is_warning_line event = true ↔ tag = "WARNING").
Proof.
  intros Hmsg Hshape. unfold is_error_line, is_warning_line. rewrite Hmsg.
  split.
  - by apply (tagged_shape_prefix msg tag d "ERROR").
  - by apply (tagged_shape_prefix msg tag d "WARNING").
Qed.

Lemma tagged_line_counted_witness :
  (is_error_line (ev "[ERROR] 2018-03-01T10:00:01Z 7f3a boom" 1050) = true
   ↔ "ERROR" = "ERROR")
  ∧ (is_warning_line (ev "[ERROR] 2018-03-01T10:00:01Z 7f3a boom" 1050) = true
     ↔ "ERROR" = "WARNING").
Proof.
  apply (tagged_line_counted _ "[ERROR] 2018-03-01T10:00:01Z 7f3a boom" "ERROR" "boom");
    [reflexivity|].
  exists " ", "2018-03-01T10:00:01Z", " ", "7f3a", " ".
  split_and!; [reflexivity..|discriminate].
Defined.

(** ** The calls to the services *)

Section Outcomes.

Context {A : Type}.

Implicit Types (o : outcome A) (calls : list call).

Lemma after_nil o : after [] o = o.
Proof. by destruct o. Qed.

Lemma all_calls_after (P : call → Prop) calls o :
  Forall P calls → all_calls P o → all_calls P (after calls o).
Proof.
  unfold all_calls. intros Hcalls Ho.
  destruct o; simpl in *; [by apply Forall_app..|done].
Qed.

Lemma all_calls_lift (P : call → Prop) (r : result A) : all_calls P (lift r).
Proof. destruct r; constructor. Qed.

End Outcomes.

Section Binds.

Context {A B : Type}.

Implicit Types (o : outcome A) (f : A → outcome B) (calls : list call).

Lemma bind_returns calls a f : Returns calls a ≫= f = after calls (f a).
Proof. done. Qed.

Lemma all_calls_bind (P : call → Prop) o f :
  all_calls P o → (∀ a, all_calls P (f a)) → all_calls P (o ≫= f).
Proof.
  intros Ho Hf. destruct o as [calls a|calls e|]; [|done..].
  rewrite bind_returns. by apply all_calls_after.
Qed.

End Binds.

Section Services.

Variable filter_log_events : filter_request → failure + filter_response.
Variable sns_publish : publish_request → failure + publish_response.
Variable topic_arn : string.
Variable environ : gmap string string.
Variable fromtimestamp : Z → result Z.
Variable str_datetime : Z → string.
Variable fmt_total_seconds : Z → string.
Variable handler_event : Type.
Variable unpack_subscription_event : handler_event → failure + subscription_event.

Local Abbreviation get_more_events := (get_more_events filter_log_events).
Local Abbreviation get_run_events := (get_run_events filter_log_events).
Local Abbreviation create_topic_message :=
  (create_topic_message fromtimestamp str_datetime fmt_total_seconds).
Local Abbreviation create_message_body :=
  (create_message_body fromtimestamp str_datetime fmt_total_seconds).
Local Abbreviation publish_run_info :=
  (publish_run_info sns_publish topic_arn fromtimestamp str_datetime fmt_total_seconds).
Local Abbreviation process_lambda_run :=
  (process_lambda_run filter_log_events sns_publish topic_arn fromtimestamp str_datetime
     fmt_total_seconds).
Local Abbreviation process_lambda_events :=
  (process_lambda_events filter_log_events sns_publish topic_arn fromtimestamp str_datetime
     fmt_total_seconds).
Local Abbreviation lambda_handler :=
  (lambda_handler filter_log_events sns_publish topic_arn environ fromtimestamp
     str_datetime fmt_total_seconds handler_event unpack_subscription_event).

Implicit Types (rid : string) (context : handler_context) (fuel : nat)
  (results page : filter_response) (pages : list filter_response)
  (events : list log_event) (i : report_info).

Lemma get_more_events_served fuel rid context results events token pages :
  resp_nextToken results = Some token →
  served filter_log_events (run_events_request rid context) (Some token) pages →
  (length pages ≤ fuel)%nat →
  get_more_events fuel rid context results events
  = Returns (page_calls (run_events_request rid context) (Some token) pages)
      (events ++ page_events pages).
Proof.
  intros Htoken Hserved. remember (Some token) as otoken eqn:Hotoken.
  revert fuel results events token Htoken Hotoken.
  induction Hserved as [otoken page Hpage Hlast|otoken page next pages Hpage Hnext _ IH];
    intros fuel results events token Htoken -> Hfuel.
  - destruct fuel as [|fuel]; [simpl in Hfuel; lia|]. simpl.
    rewrite Htoken. unfold call_filter_log_events. rewrite Hpage, bind_returns.
    destruct fuel; simpl; rewrite Hlast; unfold page_events; simpl;
      by rewrite app_nil_r.
  - destruct fuel as [|fuel]; [simpl in Hfuel; lia|]. simpl in *.
    rewrite Htoken. unfold call_filter_log_events. rewrite Hpage, bind_returns.
    rewrite (IH fuel page (events ++ resp_events page) next Hnext eq_refl) by lia.
    simpl. rewrite Hnext. unfold page_events. simpl. by rewrite app_assoc.
Qed.

Lemma get_more_events_calls fuel rid context results events :
  all_calls (λ c, ∃ token, c = FilterLogEvents (run_events_request rid context token))
    (get_more_events fuel rid context results events).
Proof.
  revert results events. induction fuel as [|fuel IH]; intros results events; simpl.
  - destruct (resp_nextToken results); constructor.
  - destruct (resp_nextToken results) as [token|]; [|constructor].
    apply all_calls_bind; [|by intros results'].
    unfold call_filter_log_events.
    destruct (filter_log_events _); repeat constructor; by eexists.
Qed.

Lemma for_each_calls {C : Type} (P : call → Prop) (f : C → outcome unit) (l : list C) :
  (∀ x, all_calls P (f x)) → all_calls P (for_each f l).
Proof.
  intros Hf. induction l as [|x l IH]; [constructor|].
  simpl. by apply all_calls_bind.
Qed.

Lemma for_each_raises {C : Type} (f : C → outcome unit) (before after : list C) x calls e :
  Forall (λ y, ∃ calls', f y = Returns calls' tt) before →
  f x = Raises calls e →
  for_each f (before ++ x :: after)
  = Raises (concat ((calls_of ∘ f) <$> before) ++ calls) e.
Proof.
  intros Hbefore Hx. induction Hbefore as [|y before [calls' Hy] _ IH]; simpl.
  - by rewrite Hx.
  - rewrite Hy, bind_returns, IH. simpl. by rewrite app_assoc.
Qed.

End Services.

Section HandlerProperties.

Variable filter_log_events : filter_request → failure + filter_response.
Variable sns_publish : publish_request → failure + publish_response.
Variable topic_arn : string.
Variable environ : gmap string string.
Variable fromtimestamp : Z → result Z.
Variable str_datetime : Z → string.
Variable fmt_total_seconds : Z → string.
Variable handler_event : Type.
Variable unpack_subscription_event : handler_event → failure + subscription_event.

Local Abbreviation get_run_events := (get_run_events filter_log_events).
Local Abbreviation create_message_body :=
  (create_message_body fromtimestamp str_datetime fmt_total_seconds).
Local Abbreviation publish_run_info :=
  (publish_run_info sns_publish topic_arn fromtimestamp str_datetime fmt_total_seconds).
Local Abbreviation process_lambda_run :=
  (process_lambda_run filter_log_events sns_publish topic_arn fromtimestamp str_datetime
     fmt_total_seconds).
Local Abbreviation process_lambda_events :=
  (process_lambda_events filter_log_events sns_publish topic_arn fromtimestamp str_datetime
     fmt_total_seconds).
Local Abbreviation lambda_handler :=
  (lambda_handler filter_log_events sns_publish topic_arn environ fromtimestamp
     str_datetime fmt_total_seconds handler_event unpack_subscription_event).

Implicit Types (rid : string) (context : handler_context) (fuel : nat)
  (pages : list filter_response) (events : list log_event) (i : report_info).

Lemma get_run_events_calls fuel rid context :
  all_calls (λ c, ∃ token, c = FilterLogEvents (run_events_request rid context token))
    (get_run_events fuel rid context).
Proof.
  unfold get_run_events. apply all_calls_bind.
  - unfold call_filter_log_events.
    destruct (filter_log_events _); repeat constructor; by eexists.
  - intros results. apply get_more_events_calls.
Qed.

Lemma publish_run_info_cases i context :
  publish_run_info i context =
    match create_message_body i context with
    | inl e => Raises [] (Raised e)
    | inr body =>
        if dry_run context then Returns [] (PublishResponse "12345")
        else
          match sns_publish (PublishRequest topic_arn (create_message_subject i context)
                               body (publish_attributes i context)) with
          | inl e =>
              Raises [Publish (PublishRequest topic_arn (create_message_subject i context)
                                 body (publish_attributes i context))] e
          | inr response =>
              Returns [Publish (PublishRequest topic_arn
                                  (create_message_subject i context)
                                  body (publish_attributes i context))] response
          end
    end.
Proof.
  unfold publish_run_info, create_topic_message.
  destruct (create_message_body i context) as [e|body]; [done|]. simpl.
  destruct (dry_run context); [done|]. unfold call_sns_publish. simpl.
  by destruct (sns_publish _).
Qed.

Lemma filter_publish_requests rid context calls :
  Forall (λ c, ∃ token, c = FilterLogEvents (run_events_request rid context token)) calls →
  List.filter is_publish calls = [].
Proof.
  induction 1 as [|c calls [token ->] _ IH]; [done|]. simpl. exact IH.
Qed.

(** X10: when the log service serves a chain of pages for the request, the
    first without a token and each next one with the token of the page
    before, [get_run_events] makes one call for each page and returns the
    events of all pages in the order served. *)
Theorem get_run_events_pages fuel rid context pages :
  served filter_log_events (run_events_request rid context) None pages →
  (length pages ≤ S fuel)%nat →
  get_run_events fuel rid context
  = Returns (page_calls (run_events_request rid context) None pages)
      (page_events pages).
Proof.
  intros Hserved Hfuel. unfold get_run_events, call_filter_log_events.
  inversion Hserved as [token page Hpage Hlast|token page next pages' Hpage Hnext Hrest];
    subst; rewrite Hpage, bind_returns.
  - destruct fuel; simpl; rewrite Hlast; unfold page_events; simpl;
      by rewrite app_nil_r.
  - simpl in Hfuel.
    rewrite (get_more_events_served _ fuel rid context page _ next pages') by (done || lia).
    simpl. by rewrite Hnext.
Qed.

(** X12: every call [get_run_events] makes is a [filter_log_events] call
    for the log group and the one log stream of the context, with the
    filter on the request identifier; only the page token differs. *)
Theorem get_run_events_requests fuel rid context :
  all_calls (λ c, ∃ token, c = FilterLogEvents
                               (FilterRequest (log_group_name context)
                                  [log_stream_name context]
                                  ("[level,ts,id=" +:+ rid +:+ ",...]") true token))
    (get_run_events fuel rid context).
Proof. apply get_run_events_calls. Qed.

(** X13: in a dry run [publish_run_info] calls no service and returns the
    message identifier 12345, for every report whose body can be made. *)
Theorem publish_run_info_dry_run i context body :
  dry_run context = true → create_message_body i context = inr body →
  publish_run_info i context = Returns [] (PublishResponse "12345").
Proof.
  intros Hdry Hbody. by rewrite publish_run_info_cases, Hbody, Hdry.
Qed.

(** X14: outside a dry run, once the body is made, [publish_run_info] makes
    exactly one call: it publishes the subject, the body and the
    attributes to the topic of the environment, and returns the answer of
    SNS or raises its exception. *)
Theorem publish_run_info_publishes i context body :
  dry_run context = false → create_message_body i context = inr body →
  let req := PublishRequest topic_arn (create_message_subject i context) body
               (publish_attributes i context) in
  calls_of (publish_run_info i context) = [Publish req]
  ∧ match sns_publish req with
    | inl e => publish_run_info i context = Raises [Publish req] e
    | inr response => publish_run_info i context = Returns [Publish req] response
    end.
Proof.
  intros Hdry Hbody. simpl.
  rewrite publish_run_info_cases, Hbody, Hdry. by destruct (sns_publish _).
Qed.

(** X15: the status attribute and the subject never disagree: status error
    goes with the ERRORS subject, warning with the WARNINGS subject and
    success with the plain subject. *)
Theorem publish_status_subject i context :
  (publish_attributes i context !! "status" = Some (string_attribute "error")
   ∧ create_message_subject i context
     = display_name context +:+ " request completed with ERRORS!")
  ∨ (publish_attributes i context !! "status" = Some (string_attribute "warning")
     ∧ create_message_subject i context
       = display_name context +:+ " request completed with WARNINGS!")
  ∨ (publish_attributes i context !! "status" = Some (string_attribute "success")
     ∧ create_message_subject i context
       = display_name context +:+ " request completed").
Proof.
  assert (publish_attributes i context !! "status"
          = Some (string_attribute (publish_status i))) as ->.
  { unfold publish_attributes. by simplify_map_eq. }
  unfold publish_status, create_message_subject.
  destruct (0 <? errors (info i)); [left; by rewrite str_app_assoc|].
  destruct (0 <? warnings (info i)); [right; left; by rewrite str_app_assoc|].
  by right; right.
Qed.

(** X16: when the first event of the report that cannot be rendered is one
    without a message, [publish_run_info] raises [KeyError('message')] and
    calls no service, dry run or not. *)
Theorem publish_run_info_no_message i context before event after :
  events i = before ++ event :: after →
  Forall (renderable fromtimestamp) before →
  message event = None →
  publish_run_info i context = Raises [] (Raised (KeyError "message")).
Proof.
  intros Hevents Hbefore Hmsg. rewrite publish_run_info_cases.
  rewrite (create_message_body_first_failure fromtimestamp str_datetime
             fmt_total_seconds i context before event after (KeyError "message"));
    [done..|].
  by apply format_log_event_no_message.
Qed.

Lemma filter_publish_nil (calls : list call) :
  List.filter is_publish calls = [] → Forall (λ c, is_publish c = false) calls.
Proof.
  induction calls as [|c calls IH]; [constructor|]. simpl.
  destruct (is_publish c) eqn:Hc; [discriminate|]. intros Hl. constructor; auto.
Qed.

Lemma publish_run_info_at_most_once i context :
  (length (List.filter is_publish (calls_of (publish_run_info i context))) ≤ 1)%nat
  ∧ (dry_run context = true →
     List.filter is_publish (calls_of (publish_run_info i context)) = []).
Proof.
  rewrite publish_run_info_cases.
  destruct (create_message_body i context) as [e|body]; [simpl; split; [lia|done]|].
  destruct (dry_run context); [simpl; split; [lia|done]|].
  destruct (sns_publish _); simpl; split; (lia || done).
Qed.

Lemma process_lambda_run_cases fuel rid context :
  process_lambda_run fuel rid context =
    match get_run_events fuel rid context with
    | Returns calls events =>
        match analyze_run_events rid events context with
        | inl e => Raises calls (Raised e)
        | inr i =>
            after calls
              (_ ← publish_run_info (ReportInfo i rid events) context; Returns [] tt)
        end
    | Raises calls e => Raises calls e
    | OutOfFuel => OutOfFuel
    end.
Proof.
  unfold process_lambda_run.
  destruct (get_run_events fuel rid context) as [calls events|calls e|]; [|done..].
  rewrite bind_returns.
  destruct (analyze_run_events rid events context) as [e|i]; simpl.
  - by rewrite app_nil_r.
  - by rewrite after_nil.
Qed.

Lemma process_lambda_run_publish_calls fuel rid context :
  (length (List.filter is_publish (calls_of (process_lambda_run fuel rid context))) ≤ 1)%nat
  ∧ (dry_run context = true →
     List.filter is_publish (calls_of (process_lambda_run fuel rid context)) = []).
Proof.
  rewrite process_lambda_run_cases.
  pose proof (get_run_events_calls fuel rid context) as Hcalls.
  apply filter_publish_requests in Hcalls.
  destruct (get_run_events fuel rid context) as [calls events|calls e|]; simpl in *.
  - destruct (analyze_run_events rid events context) as [e|i].
    { simpl. rewrite Hcalls. split; [simpl; lia|done]. }
    destruct (publish_run_info_at_most_once (ReportInfo i rid events) context)
      as [Hone Hdry].
    destruct (publish_run_info _ context) as [calls' response|calls' e|]; simpl in *;
      rewrite ?app_nil_r, ?List.filter_app, ?Hcalls; simpl; by split.
  - rewrite Hcalls. split; [simpl; lia|done].
  - split; [lia|done].
Qed.

(** X17: a run publishes at most once, and not at all in a dry run. *)
Theorem process_lambda_run_publishes_once fuel rid context :
  (length (List.filter is_publish (calls_of (process_lambda_run fuel rid context))) ≤ 1)%nat
  ∧ (dry_run context = true →
     List.filter is_publish (calls_of (process_lambda_run fuel rid context)) = []).
Proof. apply process_lambda_run_publish_calls. Qed.

(** X18: when the analysis of the fetched events fails, the run raises the
    error of the analysis after the calls that fetched the events, and
    nothing is published. *)
Theorem process_lambda_run_analysis_error fuel rid context calls events e :
  get_run_events fuel rid context = Returns calls events →
  analyze_run_events rid events context = inl e →
  process_lambda_run fuel rid context = Raises calls (Raised e)
  ∧ List.filter is_publish calls = [].
Proof.
  intros Hfetch Herr. rewrite process_lambda_run_cases, Hfetch, Herr.
  split; [done|].
  pose proof (get_run_events_calls fuel rid context) as Hcalls.
  rewrite Hfetch in Hcalls. by apply filter_publish_requests in Hcalls.
Qed.

(** X19: when [get_request_ids] fails on the batch, no run is processed:
    [process_lambda_events] raises the same error and calls no service. *)
Theorem process_lambda_events_no_ids fuel events context e :
  get_request_ids events context = inl e →
  process_lambda_events fuel events context = Raises [] (Raised e).
Proof. intros Hids. unfold process_lambda_events. by rewrite Hids. Qed.

(** X20: the runs of a batch are processed in order and the first one that
    raises ends the batch: the exception comes out of
    [process_lambda_events], after the calls of the runs before it and its
    own, and the later runs are not started. *)
Theorem process_lambda_events_aborts fuel events context before rid after calls e :
  get_request_ids events context = inr (before ++ rid :: after) →
  Forall (λ rid', ∃ calls', process_lambda_run fuel rid' context = Returns calls' tt)
    before →
  process_lambda_run fuel rid context = Raises calls e →
  process_lambda_events fuel events context
  = Raises (concat ((λ rid', calls_of (process_lambda_run fuel rid' context)) <$> before)
            ++ calls) e.
Proof.
  intros Hids Hbefore Hrid. unfold process_lambda_events. rewrite Hids. simpl.
  rewrite (for_each_raises _ before after rid calls e Hbefore Hrid). by destruct concat.
Qed.

(** X21: a log group that does not start with [/aws/lambda/] is refused:
    the handler raises [RuntimeError] and calls no service. *)
Theorem lambda_handler_not_a_lambda fuel event se :
  unpack_subscription_event event = inr se →
  startswith (logGroup se) "/aws/lambda/" = false →
  lambda_handler fuel event = Raises [] (RuntimeError (not_a_lambda_msg (logGroup se))).
Proof. intros Hunpack Hgroup. unfold lambda_handler. by rewrite Hunpack, Hgroup. Qed.

(** X22: for the log group [/aws/lambda/<name>] the handler processes the
    events of the trigger with function name and display name both
    [<name>], the dry-run setting of the environment, and returns
    its fixed answer when all runs are processed. *)
Theorem lambda_handler_context fuel event se name :
  unpack_subscription_event event = inr se →
  logGroup se = "/aws/lambda/" +:+ name →
  lambda_handler fuel event
  = (_ ← process_lambda_events fuel (logEvents se)
           (HandlerContext (logGroup se) (logStream se) name name
              (dry_run_setting environ));
     Returns [] "Mischief managed.").
Proof.
  intros Hunpack Hgroup. unfold lambda_handler. rewrite Hunpack, Hgroup.
  assert (startswith ("/aws/lambda/" +:+ name) "/aws/lambda/" = true) as ->.
  { unfold startswith. by destruct name. }
  done.
Qed.

(** X23: with [DRY_RUN] set to true the handler never publishes, whatever
    the trigger holds and the services answer. *)
Theorem lambda_handler_dry_run fuel event :
  dry_run_setting environ = true →
  all_calls (λ c, is_publish c = false) (lambda_handler fuel event).
Proof.
  intros Hdry. unfold lambda_handler. fold (dry_run_setting environ). rewrite Hdry.
  destruct (unpack_subscription_event event) as [e|se]; [constructor|].
  destruct (startswith _ _); [|constructor].
  apply all_calls_bind; [|intros; constructor].
  unfold process_lambda_events. apply all_calls_bind; [apply all_calls_lift|].
  intros ids. apply for_each_calls. intros rid.
  set (context := HandlerContext _ _ _ _ _).
  apply filter_publish_nil.
  by apply (process_lambda_run_publish_calls fuel rid context).
Qed.

End HandlerProperties.

Lemma get_run_events_pages_witness :
  get_run_events two_page_logs 1 "r" foo_context
  = Returns
      (page_calls (run_events_request "r" foo_context) None
         [FilterResponse [ev "START RequestId: r" 1000] (Some "page2");
          FilterResponse [ev "END RequestId: r" 1100] None])
      (page_events
         [FilterResponse [ev "START RequestId: r" 1000] (Some "page2");
          FilterResponse [ev "END RequestId: r" 1100] None]).
Proof.
  apply get_run_events_pages; [|simpl; lia].
  eapply served_next; [reflexivity..|].
  apply served_last; reflexivity.
Defined.

Lemma publish_run_info_dry_run_witness :
  publish_run_info accepting_sns "arn:aws:sns:topic" utc_fromtimestamp pretty pretty
    (ReportInfo (RunInfo 1000 1100 100 0 0) "r"
       [ev "START RequestId: r" 1000; ev "END RequestId: r" 1100]) dry_context
  = Returns [] (PublishResponse "12345").
Proof.
  eapply publish_run_info_dry_run; reflexivity.
Defined.

Lemma publish_run_info_publishes_witness :
  ∃ body,
    create_message_body utc_fromtimestamp pretty pretty
      (ReportInfo (RunInfo 1000 1100 100 0 0) "r"
         [ev "START RequestId: r" 1000; ev "END RequestId: r" 1100]) foo_context
    = inr body
    ∧ calls_of (publish_run_info accepting_sns "arn:aws:sns:topic" utc_fromtimestamp pretty pretty
                  (ReportInfo (RunInfo 1000 1100 100 0 0) "r"
                     [ev "START RequestId: r" 1000; ev "END RequestId: r" 1100])
                  foo_context)
      = [Publish (PublishRequest "arn:aws:sns:topic" "foo request completed" body
                    (publish_attributes
                       (ReportInfo (RunInfo 1000 1100 100 0 0) "r"
                          [ev "START RequestId: r" 1000; ev "END RequestId: r" 1100])
                       foo_context))].
Proof.
  eexists. split; [reflexivity|].
  apply (publish_run_info_publishes accepting_sns "arn:aws:sns:topic" utc_fromtimestamp pretty pretty
           (ReportInfo (RunInfo 1000 1100 100 0 0) "r"
              [ev "START RequestId: r" 1000; ev "END RequestId: r" 1100])
           foo_context); reflexivity.
Defined.

Lemma publish_run_info_no_message_witness :
  publish_run_info accepting_sns "arn:aws:sns:topic" utc_fromtimestamp pretty pretty
    (ReportInfo (RunInfo 1000 1100 100 0 0) "r"
       [ev "START RequestId: r" 1000; LogEvent None 1050 None;
        ev "END RequestId: r" 1100]) foo_context
  = Raises [] (Raised (KeyError "message")).
Proof.
  apply (publish_run_info_no_message accepting_sns "arn:aws:sns:topic"
           utc_fromtimestamp pretty pretty _ foo_context
           [ev "START RequestId: r" 1000] (LogEvent None 1050 None)
           [ev "END RequestId: r" 1100]); [reflexivity| |reflexivity].
  constructor; [|constructor]. split; [reflexivity|]. exists 1. reflexivity.
Defined.

Lemma process_lambda_run_analysis_error_witness :
  process_lambda_run two_page_logs accepting_sns "arn:aws:sns:topic" utc_fromtimestamp pretty pretty
    1 "bad" foo_context
  = Raises [FilterLogEvents (run_events_request "bad" foo_context None)]
      (Raised (AssertionError "No START event found in request log trace bad"))
  ∧ List.filter is_publish [FilterLogEvents (run_events_request "bad" foo_context None)]
    = [].
Proof.
  apply (process_lambda_run_analysis_error two_page_logs accepting_sns
           "arn:aws:sns:topic" utc_fromtimestamp pretty pretty 1 "bad" foo_context
           [FilterLogEvents (run_events_request "bad" foo_context None)]
           [ev "hello" 5]); reflexivity.
Defined.

Lemma process_lambda_events_no_ids_witness :
  process_lambda_events two_page_logs accepting_sns "arn:aws:sns:topic" utc_fromtimestamp pretty pretty
    1 [ev "START RequestId: r" 1000] foo_context
  = Raises [] (Raised (AssertionError "No END events found in message stream.")).
Proof.
  apply process_lambda_events_no_ids. reflexivity.
Defined.

Lemma process_lambda_events_aborts_witness :
  process_lambda_events two_page_logs accepting_sns "arn:aws:sns:topic" utc_fromtimestamp pretty pretty
    1 [end_event "r"; end_event "bad"; end_event "z"] foo_context
  = Raises
      (concat ((λ rid', calls_of (process_lambda_run two_page_logs accepting_sns
                                    "arn:aws:sns:topic" utc_fromtimestamp pretty pretty 1 rid'
                                    foo_context)) <$> ["r"])
       ++ [FilterLogEvents (run_events_request "bad" foo_context None)])
      (Raised (AssertionError "No START event found in request log trace bad")).
Proof.
  apply (process_lambda_events_aborts two_page_logs accepting_sns "arn:aws:sns:topic"
           utc_fromtimestamp pretty pretty 1 _ foo_context ["r"] "bad" ["z"]).
  - by vm_compute.
  - constructor; [|constructor]. eexists. by vm_compute.
  - by vm_compute.
Defined.

Lemma lambda_handler_not_a_lambda_witness :
  lambda_handler two_page_logs accepting_sns "arn:aws:sns:topic" ∅ utc_fromtimestamp pretty pretty
    subscription_event decoded 1
    (SubscriptionEvent "/ecs/foo" "stream" [end_event "r"])
  = Raises [] (RuntimeError "Log group /ecs/foo is not a lambda").
Proof.
  apply (lambda_handler_not_a_lambda two_page_logs accepting_sns "arn:aws:sns:topic" ∅
           utc_fromtimestamp pretty pretty subscription_event decoded 1 _
           (SubscriptionEvent "/ecs/foo" "stream" [end_event "r"])); reflexivity.
Defined.

Lemma lambda_handler_context_witness :
  lambda_handler two_page_logs accepting_sns "arn:aws:sns:topic" ∅ utc_fromtimestamp pretty pretty
    subscription_event decoded 1
    (SubscriptionEvent "/aws/lambda/foo" "stream" [end_event "r"])
  = (_ ← process_lambda_events two_page_logs accepting_sns "arn:aws:sns:topic" utc_fromtimestamp
           pretty pretty 1 [end_event "r"]
           (HandlerContext "/aws/lambda/foo" "stream" "foo" "foo" (dry_run_setting ∅));
     Returns [] "Mischief managed.").
Proof.
  apply (lambda_handler_context two_page_logs accepting_sns "arn:aws:sns:topic" ∅
           utc_fromtimestamp pretty pretty subscription_event decoded 1 _
           (SubscriptionEvent "/aws/lambda/foo" "stream" [end_event "r"]) "foo");
    reflexivity.
Defined.

Lemma lambda_handler_dry_run_witness :
  all_calls (λ c, is_publish c = false)
    (lambda_handler two_page_logs accepting_sns "arn:aws:sns:topic"
       {[ "DRY_RUN" := "True" ]} utc_fromtimestamp pretty pretty subscription_event decoded 1
       (SubscriptionEvent "/aws/lambda/foo" "stream" [end_event "r"])).
Proof.
  apply lambda_handler_dry_run. by vm_compute.
Defined.

(** ** The environment *)

Section Environment.

Implicit Types (environ : gmap string string) (name value : string) (c : ascii).

Lemma lower_char_letter c (small capital : ascii) :
  nat_of_ascii capital = (nat_of_ascii small - 32)%nat →
  (97 ≤ nat_of_ascii small ≤ 122)%nat →
  lower_char c = small ↔ c = small ∨ c = capital.
Proof.
  intros Hcap Hsmall. unfold lower_char.
  set (n := nat_of_ascii c).
  assert (c = ascii_of_nat n) as Hc by (unfold n; by rewrite ascii_nat_embedding).
  assert (small = ascii_of_nat (nat_of_ascii small)) as Hs
    by (by rewrite ascii_nat_embedding).
  assert (capital = ascii_of_nat (nat_of_ascii capital)) as Hk
    by (by rewrite ascii_nat_embedding).
  assert (n < 256)%nat as Hn by apply nat_ascii_bounded.
  destruct ((65 <=? n) && (n <=? 90) || (192 <=? n) && (n <=? 222) && negb (n =? 215))%nat
    eqn:Hup.
  - split.
    + intros Hlow. right. rewrite Hc, Hk, Hcap. f_equal.
      apply (f_equal nat_of_ascii) in Hlow.
      rewrite nat_ascii_embedding in Hlow; [lia|].
      apply orb_true_iff in Hup as [Hup|Hup].
      * apply andb_true_iff in Hup as [_ ?%Nat.leb_le]. lia.
      * apply andb_true_iff in Hup as [[_ ?%Nat.leb_le]%andb_true_iff _]. lia.
    + intros [->| ->].
      * subst n. apply orb_true_iff in Hup as [Hup|Hup].
        -- apply andb_true_iff in Hup as [_ ?%Nat.leb_le]. lia.
        -- apply andb_true_iff in Hup as [[?%Nat.leb_le _]%andb_true_iff _]. lia.
      * subst n. rewrite Hcap. rewrite Hs at 2. f_equal. lia.
  - split.
    + by left.
    + intros [->| ->]; [done|]. subst n. rewrite Hcap in Hup.
      apply orb_false_iff in Hup as [Hup _].
      apply andb_false_iff in Hup as [?%Nat.leb_gt|?%Nat.leb_gt]; lia.
Qed.

End Environment.

(** X24: the handler runs dry exactly when [DRY_RUN] is set to the word
    true in any mix of small and capital letters; unset, or set to
    anything else, it publishes. *)
Theorem dry_run_setting_true_iff (environ : gmap string string) :
  dry_run_setting environ = true
  ↔ ∃ c1 c2 c3 c4 : ascii,
      environ !! "DRY_RUN" = Some (String c1 (String c2 (String c3 (String c4 ""))))
      ∧ (c1 = "t" ∨ c1 = "T")%char ∧ (c2 = "r" ∨ c2 = "R")%char
      ∧ (c3 = "u" ∨ c3 = "U")%char ∧ (c4 = "e" ∨ c4 = "E")%char.
Proof.
  unfold dry_run_setting, getenv. rewrite bool_decide_eq_true.
  destruct (environ !! "DRY_RUN") as [value|]; simpl.
  - split.
    + destruct value as [|c1 [|c2 [|c3 [|c4 [|c5 value]]]]]; try discriminate.
      simpl. intros [= H1 H2 H3 H4].
      exists c1, c2, c3, c4. split; [done|].
      split_and!; (eapply lower_char_letter; [reflexivity|vm_compute; lia|done]).
    + intros (c1 & c2 & c3 & c4 & [= ->] & H1 & H2 & H3 & H4). simpl.
      repeat f_equal; (eapply lower_char_letter; [|vm_compute; lia|eassumption]);
        reflexivity.
  - split; [discriminate|]. by intros (c1 & c2 & c3 & c4 & [=] & _).
Qed.

